(** * Streak-aware activity evaluator: a shallow embedding

    The development follows [evaluator.py] (batch scorer) and [both.py]
    (live monitor).  Both scripts share the sentence mapper, the cached
    classifier and the streak tracker; they differ in the driver.

    Conventions.
    - A Python [str] is a Rocq [string] holding its UTF-8 bytes, so
      [text.encode()] is the identity and byte-wise operations on ASCII
      separators and prefixes are exact.
    - Python exceptions are values of [exn]; code that may raise returns a
      [result].
    - Numbers are integers ([Z]); the only float kept is pandas' NaN, the
      value of an empty CSV field. *)

From Stdlib Require Import ZArith Ascii String List Lia Bool.
From stdpp Require Import base option list strings pretty gmap.

Local Open Scope Z_scope.
Set Warnings "-register-all".

(** ** Python strings *)

Module Py.

Definition byte (c : ascii) : nat := nat_of_ascii c.

Definition quote : string := String (ascii_of_nat 34) "".
Definition nl : string := String (ascii_of_nat 10) "".

(** [s.startswith(p)] *)
Fixpoint startswith (p s : string) : bool :=
  match p, s with
  | "", _ => true
  | String a p', String b s' => if Ascii.eqb a b then startswith p' s' else false
  | String _ _, "" => false
  end.

(** [s.split(sep)] for a one-character separator: never the empty list. *)
Fixpoint split (sep : ascii) (s : string) : list string :=
  match s with
  | "" => [""]
  | String c s' =>
      if Ascii.eqb c sep then "" :: split sep s'
      else match split sep s' with
           | h :: t => String c h :: t
           | [] => [String c ""]
           end
  end.

(** Whitespace as [str.strip()] understands it, on UTF-8 bytes:
    U+0009..U+000D, U+001C..U+0020 (one byte);
    U+0085, U+00A0 (two bytes);
    U+1680, U+2000..U+200A, U+2028, U+2029, U+202F, U+205F, U+3000
    (three bytes). *)
Definition ws1 (a : ascii) : bool :=
  let n := byte a in
  ((9 <=? n) && (n <=? 13) || (28 <=? n) && (n <=? 32))%nat.

Definition ws2 (a b : ascii) : bool :=
  ((byte a =? 194) && ((byte b =? 133) || (byte b =? 160)))%nat.

Definition ws3 (a b c : ascii) : bool :=
  let '(x, y, z) := (byte a, byte b, byte c) in
  ((x =? 225) && (y =? 154) && (z =? 128)
   || (x =? 226) && (y =? 128)
      && ((128 <=? z) && (z <=? 138) || (z =? 168) || (z =? 169) || (z =? 175))
   || (x =? 226) && (y =? 129) && (z =? 159)
   || (x =? 227) && (y =? 128) && (z =? 128))%nat.

(** Drop leading characters recognised by [w1], [w2], [w3]. *)
Fixpoint drop_ws (w1 : ascii → bool) (w2 : ascii → ascii → bool)
    (w3 : ascii → ascii → ascii → bool) (s : string) : string :=
  match s with
  | "" => ""
  | String a s1 =>
      if w1 a then drop_ws w1 w2 w3 s1
      else match s1 with
           | String b s2 =>
               if w2 a b then drop_ws w1 w2 w3 s2
               else match s2 with
                    | String c s3 => if w3 a b c then drop_ws w1 w2 w3 s3 else s
                    | "" => s
                    end
           | "" => s
           end
  end.

Definition lstrip (s : string) : string := drop_ws ws1 ws2 ws3 s.

(** Trailing whitespace is leading whitespace of the reversed bytes, each
    character read back to front. *)
Definition rstrip (s : string) : string :=
  String.rev
    (drop_ws ws1 (λ b a, ws2 a b) (λ c b a, ws3 a b c) (String.rev s)).

(** [s.strip()] *)
Definition strip (s : string) : string := rstrip (lstrip s).

Inductive exn :=
| KeyError (key : string)
| AttributeError (attr : string)
| TypeError
| ValueError
| JSONDecodeError
| FileNotFoundError
| APIError.

Inductive result (A : Type) :=
| Ok (a : A)
| Raise (e : exn).
Arguments Ok {A} a.
Arguments Raise {A} e.

#[global] Instance result_ret : MRet result := λ A a, Ok a.
#[global] Instance result_bind : MBind result := λ A B k r,
  match r with
  | Ok a => k a
  | Raise e => Raise e
  end.

(** One field of a CSV record as the readers hand it over: [csv] yields
    strings, [pandas.read_csv] also integers, booleans and NaN. *)
Inductive cell :=
| CStr (s : string)
| CInt (z : Z)
| CBool (b : bool)
| CNaN.

(** [str(x)], what an f-string interpolates. *)
Definition str (x : cell) : string :=
  match x with
  | CStr s => s
  | CInt z => pretty z
  | CBool true => "True"
  | CBool false => "False"
  | CNaN => "nan"
  end.

(** JSON documents as [json.loads] builds them; a [dict] keeps the order
    of its keys. *)
Inductive json :=
| JNull
| JBool (b : bool)
| JInt (z : Z)
| JStr (s : string)
| JList (l : list json)
| JDict (d : list (string * json)).

End Py.
Import Py.


(** ** Tunables *)

Definition POS_THRESH : Z := 4.
Definition NEG_THRESH : Z := -4.
Definition STREAK_LEN : Z := 3.

(** ** Rows

    [sentence_from_row] is written against whatever supports [row["k"]] and
    [row.get("k", default)]: a [pandas.Series] in [evaluator.py], a [dict]
    of strings in [both.py]. *)

Class Row (R : Type) := {
  getitem : R → string → result cell;
  get : R → string → cell → cell;
}.

(** A [pandas.Series] indexed by column name, in column order. *)
Definition series (A : Type) : Type := list (string * A).

Fixpoint series_lookup {A} (k : string) (row : series A) : option A :=
  match row with
  | [] => None
  | (k', v) :: row' => if decide (k' = k) then Some v else series_lookup k row'
  end.

(** [row[k] = v]: overwrite in place, or enlarge the index at the end. *)
Fixpoint series_set {A} (k : string) (v : A) (row : series A) : series A :=
  match row with
  | [] => [(k, v)]
  | (k', v') :: row' =>
      if decide (k' = k) then (k', v) :: row' else (k', v') :: series_set k v row'
  end.

#[global] Instance series_row : Row (series cell) := {
  getitem row k := from_option Ok (Raise (KeyError k)) (series_lookup k row);
  get row k d := default d (series_lookup k row);
}.

#[global] Instance dict_row : Row (gmap string string) := {
  getitem row k := from_option (λ s, Ok (CStr s)) (Raise (KeyError k)) (row !! k);
  get row k d := from_option CStr d (row !! k);
}.

(** ** Helpers *)

Definition first_clause (text : cell) : cell :=
  match text with
  | CStr s => CStr (hd "" (split "|" s))
  | _ => text
  end.

(** [x.strip()] on a value that may not be a [str]. *)
Definition str_strip (x : cell) : result string :=
  match x with
  | CStr s => Ok (strip s)
  | _ => Raise (AttributeError "strip")
  end.

Definition sentence_from_row {R} `{Row R} (row : R) : result string :=
  event ← getitem row "event";
  let details := get row "details" (CStr "") in
  match event with
  | CStr event =>
      if startswith "browser_tab" event then
        Ok ("Visited " +:+ quote +:+ str (first_clause details)
              +:+ quote +:+ " in browser")
      else if startswith "app_switch" event then
        s ← str_strip (first_clause details); Ok ("Switched to " +:+ s)
      else if startswith "app_usage" event then
        s ← str_strip (first_clause details); Ok ("Used " +:+ s)
      else Ok event
  | _ => Raise (AttributeError "startswith")
  end.

(** ** Streak tracker *)

Inductive trend := neutral | good | bad.

#[global] Instance trend_eq_dec : EqDecision trend.
Proof. solve_decision. Defined.

(** The four [notify] call sites of [Streak.update], with what each
    interpolates into its message. *)
Inductive notification :=
| SustainedGood
| SustainedBad (sentence : string) (reason : json)
| StreakBroken
| TurningTide.

Module Streak.

Record t := mk { pos : Z; neg : Z; state : trend }.

(** [__init__] *)
Definition init : t := {| pos := 0; neg := 0; state := neutral |}.

Definition set_state (st : trend) (self : t) : t :=
  {| pos := pos self; neg := neg self; state := st |}.

(** The counter step, then the four guarded blocks in source order.  Each
    returns the object and the notifications it sent. *)
Definition bucket (score : Z) (self : t) : t :=
  if decide (score >= POS_THRESH) then
    {| pos := pos self + 1; neg := 0; state := state self |}
  else if decide (score <= NEG_THRESH) then
    {| pos := 0; neg := neg self + 1; state := state self |}
  else {| pos := 0; neg := 0; state := state self |}.

Definition sustained_good (self : t) : t * list notification :=
  if decide (pos self = STREAK_LEN ∧ state self ≠ good)
  then (set_state good self, [SustainedGood]) else (self, []).

Definition sustained_bad (sentence : string) (reason : json) (self : t)
  : t * list notification :=
  if decide (neg self = STREAK_LEN ∧ state self ≠ bad)
  then (set_state bad self, [SustainedBad sentence reason]) else (self, []).

Definition good_broken (self : t) : t * list notification :=
  if decide (state self = good ∧ neg self = 1)
  then (set_state neutral self, [StreakBroken]) else (self, []).

Definition bad_broken (self : t) : t * list notification :=
  if decide (state self = bad ∧ pos self = 1)
  then (set_state neutral self, [TurningTide]) else (self, []).

Definition then_ (f : t → t * list notification) (r : t * list notification)
  : t * list notification :=
  let '(self, out) := r in
  let '(self', out') := f self in (self', out ++ out').

Definition update (score : Z) (sentence : string) (reason : json) (self : t)
  : t * list notification :=
  then_ bad_broken
    (then_ good_broken
       (then_ (sustained_bad sentence reason)
          (sustained_good (bucket score self)))).

(** The tracker after a session: [update] folded over the events in
    arrival order, from [init]. *)
Definition run (events : list (Z * string * json)) : t :=
  foldl (λ self e, (update e.1.1 e.1.2 e.2 self).1) init events.

End Streak.

(** ** The outside world

    What the scripts touch besides their arguments: the [.cache] directory,
    the completion service, standard output and the notifier.  Every
    effectful function threads a [world] and may raise. *)

Inductive line :=
| LLMError (e : exn)
| Saved (out : string).

Record world := mkWorld {
  files : gmap string string;   (* path of a cache file ↦ its text *)
  requests : nat;               (* completion requests sent so far *)
  stdout : list line;
  sent : list notification;
}.

Definition M (A : Type) : Type := world → result A * world.

#[global] Instance M_ret : MRet M := λ A a w, (Ok a, w).
#[global] Instance M_bind : MBind M := λ A B k m w,
  match m w with
  | (Ok a, w') => k a w'
  | (Raise e, w') => (Raise e, w')
  end.

Definition lift {A} (r : result A) : M A := λ w, (r, w).

(** [try: m  except Exception as e: h e] *)
Definition try_except {A} (m : M A) (h : exn → M A) : M A := λ w,
  match m w with
  | (Ok a, w') => (Ok a, w')
  | (Raise e, w') => h e w'
  end.

Definition print (l : line) : M unit := λ w,
  (Ok (), mkWorld (files w) (requests w) (stdout w ++ [l]) (sent w)).

Definition notify_all (ns : list notification) : M unit := λ w,
  (Ok (), mkWorld (files w) (requests w) (stdout w) (sent w ++ ns)).

Definition path_exists (path : string) : M bool := λ w,
  (Ok (bool_decide (is_Some (files w !! path))), w).

Definition read_text (path : string) : M string := λ w,
  (from_option Ok (Raise FileNotFoundError) (files w !! path), w).

Definition write_text (path text : string) : M unit := λ w,
  (Ok (), mkWorld (<[path := text]> (files w)) (requests w) (stdout w) (sent w)).

Definition CATEGORIES : list string :=
  ["deep_work"; "learning"; "research"; "admin"; "break_fun"; "social"; "vice"].

(** [str] of a list of plain identifiers, as [{cats}] is formatted. *)
Definition list_str (l : list string) : string :=
  "[" +:+ foldr (λ c acc, "'" +:+ c +:+ "'" +:+ (if acc =? "" then "" else ", " +:+ acc)%string)
            "" l +:+ "]".

(** ** Classifier with cache

    The libraries and the service are parameters: [hashlib.sha1(b).hexdigest()],
    [json.loads] ([None] when it raises), [json.dumps], and the completion
    service, which answers the [n]-th request for a model and a prompt with
    the text of the first choice, or fails. *)

Record env := mkEnv {
  sha1_hexdigest : string → string;
  json_loads : string → option json;
  json_dumps : json → string;
  chat_completions_create : nat → string → string → option string;
}.

Section Classifier.

Variable E : env.
Variable PROMPT_TMPL : string → string → string → string.
Variable PHILOSOPHY : string.

Definition cache_file (text : string) : string :=
  ".cache/" +:+ sha1_hexdigest E text +:+ ".json".

Definition loads (text : string) : M json :=
  lift (from_option Ok (Raise JSONDecodeError) (json_loads E text)).

Definition create (model prompt : string) : M string := λ w,
  (from_option Ok (Raise APIError)
     (chat_completions_create E (requests w) model prompt),
   mkWorld (files w) (S (requests w)) (stdout w) (sent w)).

Definition call_llm (activity model : string) : M json :=
  let prompt := PROMPT_TMPL (list_str CATEGORIES) PHILOSOPHY activity in
  content ← create model prompt;
  loads content.

Definition llm_error : json :=
  JDict [("category", JStr "unknown"); ("score", JInt 0); ("reason", JStr "llm_error")].

Definition classify (activity model : string) : M json :=
  let path := cache_file activity in
  hit ← path_exists path;
  if hit : bool then
    text ← read_text path;
    loads text
  else
    result ← try_except (call_llm activity model)
                (λ e, _ ← print (LLMError e); mret llm_error);
    _ ← write_text path (json_dumps E result);
    mret result.

(** The world after further [classify] calls, each for a sentence and a
    model, whatever they return. *)
Definition classify_each (calls : list (string * string)) (w : world) : world :=
  foldl (λ w c, (classify c.1 c.2 w).2) w calls.

(** *** What both drivers do with a classification *)

(** [res[k]] *)
Definition json_getitem (res : json) (k : string) : result json :=
  match res with
  | JDict d => from_option Ok (Raise (KeyError k)) (series_lookup k d)
  | _ => Raise TypeError
  end.

(** [res.values()] *)
Definition json_values (res : json) : result (list json) :=
  match res with
  | JDict d => Ok (d.*2)
  | _ => Raise (AttributeError "values")
  end.

(** The comparisons [score >= POS_THRESH], [score <= NEG_THRESH] need a
    number; [bool] is one. *)
Definition as_int (score : json) : result Z :=
  match score with
  | JInt z => Ok z
  | JBool b => Ok (Z.b2z b)
  | _ => Raise TypeError
  end.

(** [streak.update(res["score"], sent, res["reason"])] *)
Definition streak_update (streak : Streak.t) (res : json) (sent : string)
  : M Streak.t :=
  score ← lift (json_getitem res "score");
  reason ← lift (json_getitem res "reason");
  score ← lift (as_int score);
  let '(streak', ns) := Streak.update score sent reason streak in
  _ ← notify_all ns;
  mret streak'.

End Classifier.

(** ** [evaluator.py]: batch scoring *)

Module Evaluator.

Definition DEFAULT_MODEL : string := "gpt-4o-mini".

Definition PHILOSOPHY : string :=
  "Nietzsche, *On the Genealogy of Morality* — 4 diagnostic rules:" +:+ nl +:+
  "1. Life‑affirming, creative, power‑expanding actions (master morality) are GOOD." +:+
  nl +:+
  "2. Reactive, ressentiment‑driven, herd‑pleasing actions (slave morality) are BAD." +:+
  nl +:+
  "3. Guilt‑ridden self‑punishment & excessive asceticism are life‑denying (score −)." +:+
  nl +:+
  "4. Self‑overcoming discipline that strengthens one’s will is positive (score +).".

Definition PROMPT_TMPL (cats phil activity : string) : string :=
  "You are a Nietzschean critic." +:+ nl +:+
  "Categories = " +:+ cats +:+ "." +:+ nl +:+
  "Philosophy = " +:+ phil +:+ nl +:+
  nl +:+
  "Return ONLY a JSON object with keys:" +:+ nl +:+
  "  category – one of the categories" +:+ nl +:+
  "  score    – integer −5…5 (positive = life‑affirming)" +:+ nl +:+
  "  reason   – ≤ 12 words" +:+ nl +:+
  nl +:+
  "ACTIVITY: " +:+ quote +:+ activity +:+ quote +:+ nl.

(** An enriched row holds the fields read from the CSV and, in the three
    [ai_] columns, what the classification held. *)
Inductive value :=
| VCell (c : cell)
| VJson (j : json).

(** [df.head(n)] *)
Definition head {A} (n : Z) (df : list A) : list A :=
  if decide (0 <= n) then take (Z.to_nat n) df
  else take (length df - Z.to_nat (- n)) df.

Section Driver.

Variable E : env.

Definition classify : string → string → M json :=
  classify E PROMPT_TMPL PHILOSOPHY.

(** [a, b, c = xs] *)
Definition unpack3 (xs : list json) : result (json * json * json) :=
  match xs with
  | [a; b; c] => Ok (a, b, c)
  | _ => Raise ValueError
  end.

(** One turn of the [for] loop. *)
Definition process_row (model : string)
    (acc : Streak.t * list (series value)) (row : series cell)
  : M (Streak.t * list (series value)) :=
  let '(streak, enriched) := acc in
  sent ← lift (sentence_from_row row);
  res ← classify sent model;
  vals ← lift (json_values res);
  '(c, s, r) ← lift (unpack3 vals);
  let row :=
    series_set "ai_reason" (VJson r)
      (series_set "ai_score" (VJson s)
         (series_set "ai_category" (VJson c) (prod_map id VCell <$> row))) in
  let enriched := enriched ++ [row] in
  streak ← streak_update streak res sent;
  mret (streak, enriched).

Fixpoint for_rows (model : string) (rows : list (series cell))
    (acc : Streak.t * list (series value))
  : M (Streak.t * list (series value)) :=
  match rows with
  | [] => mret acc
  | row :: rows' => acc' ← process_row model acc row; for_rows model rows' acc'
  end.

(** [process(inp, out, model=, limit=)], given the frame read from [inp];
    the result is the frame written to [out]. *)
Definition process (df : list (series cell)) (out : string) (model : string)
    (limit : option Z) : M (list (series value)) :=
  let df := match limit with
            | Some n => if decide (n = 0) then df else head n df
            | None => df
            end in
  '(_, enriched) ← for_rows model df (Streak.init, []);
  _ ← print (Saved out);
  mret enriched.

End Driver.

End Evaluator.

(** ** [both.py]: live monitor *)

Module Both.

Definition DEFAULT_MODEL : string := "gpt-4o-mini".

Definition PHILOSOPHY : string :=
  "Nietzsche, *On the Genealogy of Morality* rules:" +:+ nl +:+
  "1. Life‑affirming, power‑expanding actions (master) are GOOD." +:+ nl +:+
  "2. Ressentiment‑driven, herd‑pleasing actions (slave) are BAD." +:+ nl +:+
  "3. Self‑punishing asceticism is life‑denying (score −)." +:+ nl +:+
  "4. Self‑overcoming discipline that strengthens will is positive (score +).".

Definition PROMPT_TMPL (cats phil activity : string) : string :=
  "You are a Nietzschean critic." +:+ nl +:+
  "Categories = " +:+ cats +:+ "." +:+ nl +:+
  "Philosophy = " +:+ phil +:+ nl +:+
  nl +:+
  "Return ONLY a JSON object with keys: " +:+ nl +:+
  "  category – one category" +:+ nl +:+
  "  score – integer −5…5" +:+ nl +:+
  "  reason – ≤ 12 words" +:+ nl +:+
  nl +:+
  "ACTIVITY: " +:+ quote +:+ activity +:+ quote +:+ nl.

(** [dict(pairs)]: a later pair overrides an earlier one. *)
Definition dict (pairs : list (string * string)) : gmap string string :=
  foldl (λ d kv, <[kv.1 := kv.2]> d) ∅ pairs.

(** What [f.readline()] finds: nothing new, or a line, given here by the
    fields [csv.reader] splits it into. *)
Inductive poll :=
| Nothing
| Line (fields : list string).

Section Driver.

Variable E : env.

Definition classify : string → string → M json :=
  classify E PROMPT_TMPL PHILOSOPHY.

(** One turn of the [while True] loop. *)
Definition evaluate_step (model : string) (fieldnames : list string)
    (streak : Streak.t) (p : poll) : M Streak.t :=
  match p with
  | Nothing => mret streak
  | Line fields =>
      let row := dict (zip fieldnames fields) in
      if decide (row !! "timestamp" = Some "timestamp") then mret streak
      else
        sent ← lift (sentence_from_row row);
        res ← classify sent model;
        streak_update streak res sent
  end.

(** [evaluate_live] after the polls [ps], from the streak [streak]. *)
Fixpoint evaluate_polls (model : string) (fieldnames : list string)
    (ps : list poll) (streak : Streak.t) : M Streak.t :=
  match ps with
  | [] => mret streak
  | p :: ps' =>
      streak' ← evaluate_step model fieldnames streak p;
      evaluate_polls model fieldnames ps' streak'
  end.

Definition evaluate_live (model : string) (fieldnames : list string)
    (ps : list poll) : M Streak.t :=
  evaluate_polls model fieldnames ps Streak.init.

End Driver.

End Both.

(** ** A JSON codec to run the pipeline on concrete text

    [Json.dumps] prints like [json.dumps] (separators [", "] and [": "]);
    [Json.loads] reads integers, strings with the two-character escapes,
    [null], booleans, arrays and objects, and fails on anything else.  That
    covers the classifications exchanged here; the theorems below hold for
    every codec and use this one only to evaluate examples. *)

Module Json.

Definition is_byte (n : nat) (c : ascii) : bool := (byte c =? n)%nat.

Fixpoint skip_ws (s : string) : string :=
  match s with
  | String c s' =>
      if is_byte 32 c || is_byte 9 c || is_byte 10 c || is_byte 13 c
      then skip_ws s' else s
  | "" => ""
  end.

Definition escape_char (c : ascii) : string :=
  if is_byte 34 c then "\" +:+ quote
  else if is_byte 92 c then "\\"
  else if is_byte 10 c then "\n"
  else if is_byte 13 c then "\r"
  else if is_byte 9 c then "\t"
  else String c "".

Fixpoint escape (s : string) : string :=
  match s with
  | "" => ""
  | String c s' => escape_char c +:+ escape s'
  end.

Definition unescape_char (c : ascii) : option ascii :=
  if is_byte 34 c || is_byte 92 c || is_byte 47 c then Some c
  else if is_byte 110 c then Some (ascii_of_nat 10)
  else if is_byte 114 c then Some (ascii_of_nat 13)
  else if is_byte 116 c then Some (ascii_of_nat 9)
  else if is_byte 98 c then Some (ascii_of_nat 8)
  else if is_byte 102 c then Some (ascii_of_nat 12)
  else None.

(** The characters of a string literal after its opening quote, and what
    follows the closing quote. *)
Fixpoint chars (s : string) : option (string * string) :=
  match s with
  | "" => None
  | String c s' =>
      if is_byte 34 c then Some ("", s')
      else if is_byte 92 c then
        match s' with
        | String e s'' =>
            ch ← unescape_char e;
            '(r, rest) ← chars s'';
            Some (String ch r, rest)
        | "" => None
        end
      else if (byte c <? 32)%nat then None
      else '(r, rest) ← chars s'; Some (String c r, rest)
  end.

Definition digit (c : ascii) : option Z :=
  let n := byte c in
  if ((48 <=? n) && (n <=? 57))%nat then Some (Z.of_nat n - 48) else None.

Fixpoint digits (acc : Z) (s : string) : Z * string :=
  match s with
  | String c s' =>
      match digit c with
      | Some d => digits (10 * acc + d) s'
      | None => (acc, s)
      end
  | "" => (acc, "")
  end.

(** A number without sign: no leading zero, no fraction, no exponent. *)
Definition natural (s : string) : option (Z * string) :=
  match s with
  | String c s' =>
      d ← digit c;
      let '(n, rest) := if decide (d = 0) then (0, s') else digits d s' in
      match rest with
      | String c' _ =>
          if bool_decide (is_Some (digit c')) || is_byte 46 c' || is_byte 101 c' || is_byte 69 c'
          then None else Some (n, rest)
      | "" => Some (n, rest)
      end
  | "" => None
  end.

Fixpoint drop (n : nat) (s : string) : string :=
  match n, s with
  | S n', String _ s' => drop n' s'
  | _, _ => s
  end.

Definition keyword (k : string) (v : json) (s : string) : option (json * string) :=
  if startswith k s then Some (v, drop (String.length k) s) else None.

(** [value n s] reads one document at the head of [s]; [n] bounds the
    number of nested calls, one per character at most. *)
Fixpoint value (n : nat) (s : string) : option (json * string) :=
  match n with
  | O => None
  | S n =>
      match skip_ws s with
      | "" => None
      | String c s' as s0 =>
          if is_byte 110 c then keyword "null" JNull s0
          else if is_byte 116 c then keyword "true" (JBool true) s0
          else if is_byte 102 c then keyword "false" (JBool false) s0
          else if is_byte 34 c then
            '(r, rest) ← chars s'; Some (JStr r, rest)
          else if is_byte 45 c then
            '(z, rest) ← natural s'; Some (JInt (- z), rest)
          else if is_byte 91 c then
            match skip_ws s' with
            | String c' s'' =>
                if is_byte 93 c' then Some (JList [], s'')
                else '(l, rest) ← elements n s'; Some (JList l, rest)
            | "" => None
            end
          else if is_byte 123 c then
            match skip_ws s' with
            | String c' s'' =>
                if is_byte 125 c' then Some (JDict [], s'')
                else '(d, rest) ← members n [] s'; Some (JDict d, rest)
            | "" => None
            end
          else '(z, rest) ← natural s0; Some (JInt z, rest)
      end
  end
with elements (n : nat) (s : string) : option (list json * string) :=
  match n with
  | O => None
  | S n =>
      '(v, rest) ← value n s;
      match skip_ws rest with
      | String c rest' =>
          if is_byte 44 c then
            '(l, rest'') ← elements n rest'; Some (v :: l, rest'')
          else if is_byte 93 c then Some ([v], rest')
          else None
      | "" => None
      end
  end
with members (n : nat) (d : list (string * json)) (s : string)
    : option (list (string * json) * string) :=
  match n with
  | O => None
  | S n =>
      match skip_ws s with
      | String q s' =>
          if is_byte 34 q then
            '(k, rest) ← chars s';
            match skip_ws rest with
            | String c rest' =>
                if is_byte 58 c then
                  '(v, rest'') ← value n rest';
                  let d := series_set k v d in
                  match skip_ws rest'' with
                  | String c' rest3 =>
                      if is_byte 44 c' then members n d rest3
                      else if is_byte 125 c' then Some (d, rest3)
                      else None
                  | "" => None
                  end
                else None
            | "" => None
            end
          else None
      | "" => None
      end
  end.

Definition loads (s : string) : option json :=
  '(v, rest) ← value (S (String.length s)) s;
  if decide (skip_ws rest = "") then Some v else None.

Definition join (sep : string) (l : list string) : string :=
  foldr (λ x acc, if decide (acc = "") then x else x +:+ sep +:+ acc) "" l.

Fixpoint dumps (v : json) : string :=
  match v with
  | JNull => "null"
  | JBool true => "true"
  | JBool false => "false"
  | JInt z => pretty z
  | JStr s => quote +:+ escape s +:+ quote
  | JList l => "[" +:+ join ", " (dumps <$> l) +:+ "]"
  | JDict d =>
      "{" +:+ join ", " ((λ kv, quote +:+ escape kv.1 +:+ quote +:+ ": " +:+ dumps kv.2) <$> d)
          +:+ "}"
  end.

End Json.

(** ** SHA-1, to name cache files as [hashlib] does *)

Module Sha1.

Local Open Scope N_scope.

Definition mask (x : N) : N := x mod 2 ^ 32.

Definition rotl (k x : N) : N :=
  mask (N.lor (N.shiftl x k) (N.shiftr x (32 - k))).

Definition add (x y : N) : N := mask (x + y).

(** Message, a one bit, zeros up to 56 modulo 64, then the bit length on
    eight bytes. *)
Definition pad (msg : list N) : list N :=
  let len := N.of_nat (length msg) in
  let zeros := (55 + 64 - len mod 64) mod 64 in
  msg ++ [128] ++ replicate (N.to_nat zeros) 0
      ++ ((λ i, N.shiftr (8 * len) (8 * i) mod 256) <$> [7; 6; 5; 4; 3; 2; 1; 0]).

Fixpoint words (n : nat) (bytes : list N) : list N :=
  match n, bytes with
  | S n, a :: b :: c :: d :: rest =>
      (((a * 256 + b) * 256 + c) * 256 + d) :: words n rest
  | _, _ => []
  end.

Definition at_ (w : list N) (i : nat) : N := nth i w 0.

(** [schedule n w]: extend the sixteen words of a block by [n] more. *)
Fixpoint schedule (n : nat) (w : list N) : list N :=
  match n with
  | O => w
  | S n =>
      let t := length w in
      let x := N.lxor (N.lxor (at_ w (t - 3)) (at_ w (t - 8)))
                      (N.lxor (at_ w (t - 14)) (at_ w (t - 16))) in
      schedule n (w ++ [rotl 1 x])
  end.

Definition f (t : nat) (b c d : N) : N :=
  if (t <? 20)%nat then N.lor (N.land b c) (N.land (N.lxor b 4294967295) d)
  else if (t <? 40)%nat then N.lxor (N.lxor b c) d
  else if (t <? 60)%nat then
    N.lor (N.lor (N.land b c) (N.land b d)) (N.land c d)
  else N.lxor (N.lxor b c) d.

Definition k (t : nat) : N :=
  if (t <? 20)%nat then 1518500249
  else if (t <? 40)%nat then 1859775393
  else if (t <? 60)%nat then 2400959708
  else 3395469782.

Definition state : Type := N * N * N * N * N.

Fixpoint rounds (t : nat) (w : list N) (s : state) : state :=
  match w with
  | [] => s
  | wt :: w' =>
      let '(a, b, c, d, e) := s in
      let temp := add (add (add (add (rotl 5 a) (f t b c d)) e) (k t)) wt in
      rounds (S t) w' (temp, a, rotl 30 b, c, d)
  end.

Definition block (h : state) (bytes : list N) : state :=
  let '(h0, h1, h2, h3, h4) := h in
  let '(a, b, c, d, e) := rounds 0 (schedule 64 (words 16 bytes)) h in
  (add h0 a, add h1 b, add h2 c, add h3 d, add h4 e).

Fixpoint blocks (n : nat) (h : state) (bytes : list N) : state :=
  match n with
  | O => h
  | S n => blocks n (block h (take 64 bytes)) (drop 64 bytes)
  end.

Definition hex_digit (x : N) : ascii :=
  ascii_of_N (if x <? 10 then 48 + x else 87 + x).

Definition hex_word (x : N) : string :=
  foldr (λ i acc, String (hex_digit (N.shiftr x (4 * i) mod 16)) acc) ""
    [7; 6; 5; 4; 3; 2; 1; 0].

Definition hexdigest (msg : string) : string :=
  let bytes := pad (N_of_ascii <$> list_ascii_of_string msg) in
  let '(h0, h1, h2, h3, h4) :=
    blocks (length bytes / 64)
      (1732584193, 4023233417, 2562383102, 271733878, 3285377520) bytes in
  hex_word h0 +:+ hex_word h1 +:+ hex_word h2 +:+ hex_word h3 +:+ hex_word h4.

End Sha1.

(** ** A scripted service, to evaluate the pipeline

    The libraries are the ones above; the service answers its [n]-th request
    with the [n]-th entry of a script, [None] being a failed request, and
    fails once the script is over. *)

Definition scripted (answers : list (option string)) : env :=
  mkEnv Sha1.hexdigest Json.loads Json.dumps (λ n _ _, mjoin (answers !! n)).

(** An empty [.cache], nothing requested, printed or notified yet. *)
Definition fresh : world := mkWorld ∅ 0 [] [].

Definition praise : json :=
  JDict [("category", JStr "deep_work"); ("score", JInt 5);
         ("reason", JStr "creative work")].

Definition blame : json :=
  JDict [("category", JStr "vice"); ("score", JInt (-5));
         ("reason", JStr "herd distraction")].

(** The fields of [praise], with [score] first. *)
Definition praise_score_first : json :=
  JDict [("score", JInt 5); ("category", JStr "deep_work");
         ("reason", JStr "creative work")].

(** ** The specification's words *)

Fixpoint has_char (c : ascii) (s : string) : bool :=
  match s with
  | "" => false
  | String a s' => Ascii.eqb a c || has_char c s'
  end.

(** [field0] is [text] up to its first [sep]: it holds no [sep], and [text]
    is [field0], or [field0] followed by [sep] and more. *)
Definition up_to_first (sep : ascii) (text field0 : string) : Prop :=
  has_char sep field0 = false
  ∧ (text = field0 ∨ ∃ rest, text = field0 +:+ String sep rest).

(** The characters that count as white space, each as its UTF-8 bytes:
    U+0009 to U+000D, U+001C to U+0020, U+0085, U+00A0, U+1680,
    U+2000 to U+200A, U+2028, U+2029, U+202F, U+205F and U+3000. *)
Definition utf8 (bytes : list nat) : string :=
  foldr (λ n s, String (ascii_of_nat n) s) "" bytes.

Definition WHITESPACE : list string :=
  utf8 <$> [[9]; [10]; [11]; [12]; [13]; [28]; [29]; [30]; [31]; [32];
            [194; 133]; [194; 160];
            [225; 154; 128];
            [226; 128; 128]; [226; 128; 129]; [226; 128; 130]; [226; 128; 131];
            [226; 128; 132]; [226; 128; 133]; [226; 128; 134]; [226; 128; 135];
            [226; 128; 136]; [226; 128; 137]; [226; 128; 138];
            [226; 128; 168]; [226; 128; 169]; [226; 128; 175];
            [226; 129; 159];
            [227; 128; 128]]%nat.

(** A string made of characters of the table [T] and nothing else. *)
Inductive made_of (T : list string) : string → Prop :=
  | made_of_nil : made_of T ""
  | made_of_cons (w s : string) : w ∈ T → made_of T s → made_of T (w +:+ s).

(** [t] is [s] trimmed: [s] is [t] between two runs of white space, and [t]
    neither begins nor ends with a white-space character. *)
Definition trimmed (s t : string) : Prop :=
  ∃ l r, s = l +:+ t +:+ r
    ∧ made_of WHITESPACE l ∧ made_of WHITESPACE r
    ∧ (∀ w rest, w ∈ WHITESPACE → t ≠ w +:+ rest)
    ∧ (∀ w rest, w ∈ WHITESPACE → t ≠ rest +:+ w).

(** ** Further definitions: runs of scores *)

(** The number of elements at the end of [l] that satisfy [p]. *)
Fixpoint run_length {A} (p : A → bool) (rev_l : list A) : nat :=
  match rev_l with
  | x :: rest => if p x then S (run_length p rest) else O
  | [] => O
  end.

Definition trailing {A} (p : A → bool) (l : list A) : nat :=
  run_length p (reverse l).

Definition is_good (e : Z * string * json) : bool :=
  bool_decide (e.1.1 >= POS_THRESH).

Definition is_bad (e : Z * string * json) : bool :=
  bool_decide (e.1.1 <= NEG_THRESH).

(** The link between trend and counters that every update keeps. *)
Definition coherent (self : Streak.t) : Prop :=
  (Streak.state self = good → Streak.neg self = 0)
  ∧ (Streak.state self = bad → Streak.pos self = 0).

(** ** Further definitions: rows of the log *)

(** Columns of the log, as every logger writes them. *)
Definition HEADER : list string := ["timestamp"; "event"; "details"].

(** One record of the log as [read_csv] returns it when all three fields
    are text. *)
Definition raw_event (timestamp event details : string) : series cell :=
  [("timestamp", CStr timestamp); ("event", CStr event); ("details", CStr details)].

(** The rows [process] goes through: all of them without a limit or with
    limit 0, the first [n] for a positive limit, all but the last [-n] for a
    negative one. *)
Definition processed {A} (limit : option Z) (df : list A) : list A :=
  match limit with
  | Some n => if decide (n = 0) then df else Evaluator.head n df
  | None => df
  end.



(** Every answer of the service that parses, and the fallback, survive
    [json.dumps] then [json.loads]. *)
Definition answers_round_trip (E : env) : Prop :=
  (∀ n model prompt body v,
     chat_completions_create E n model prompt = Some body →
     json_loads E body = Some v →
     json_loads E (json_dumps E v) = Some v)
  ∧ json_loads E (json_dumps E llm_error) = Some llm_error.

(** ** [both.py]: the logger thread and the loop over the log file

    The log is the list of its records, each the list of its fields:
    [csv.writer] and [csv.reader] are taken to be inverse, one record per
    line. *)

Module Monitor.

(** [needle in hay] *)
Fixpoint contains (needle hay : string) : bool :=
  startswith needle hay
  || match hay with
     | "" => false
     | String _ hay' => contains needle hay'
     end.

Fixpoint drop_chars (n : nat) (s : string) : string :=
  match n, s with
  | S n', String _ s' => drop_chars n' s'
  | _, _ => s
  end.

(** [s.split(sep, 1)] for a separator that is not empty: one cut at most,
    at the first occurrence. *)
Fixpoint split_once (sep s : string) : list string :=
  if startswith sep s then [""; drop_chars (String.length sep) s]
  else match s with
       | "" => [""]
       | String c s' =>
           match split_once sep s' with
           | h :: t => String c h :: t
           | [] => [String c ""]
           end
       end.

(** [_get_chrome_tab()], given what [osascript] printed, [None] when
    [check_output] raised. *)
Definition _get_chrome_tab (osascript : option string) : list string :=
  match osascript with
  | None => ["Unknown"; "Unknown"]
  | Some out => split_once "||" (strip out)
  end.

(** One turn of the loop of [logger_thread]: the record written for the
    time [ts] and the window title [app]. *)
Definition sample (ts app : string) (osascript : option string)
  : result (list string) :=
  if contains "Chrome" app then
    match _get_chrome_tab osascript with
    | [title; url] => Ok [ts; "browser_tab_snapshot"; title +:+ "|" +:+ url]
    | _ => Raise ValueError
    end
  else Ok [ts; "app_snapshot"; app].

Fixpoint write_samples (samples : list (string * string * option string))
    (file : list (list string)) : result unit * list (list string) :=
  match samples with
  | [] => (Ok (), file)
  | (ts, app, osascript) :: samples' =>
      match sample ts app osascript with
      | Ok row => write_samples samples' (file ++ [row])
      | Raise e => (Raise e, file)
      end
  end.

(** [logger_thread] until [stop] is set, after the given samples: the
    header goes first into an empty file. *)
Definition logger_thread (file : list (list string))
    (samples : list (string * string * option string))
  : result unit * list (list string) :=
  write_samples samples (if decide (file = []) then [HEADER] else file).

(** The [csv.DictReader] over the open file: how many records have been
    read from the file, and the field names once they are known.  The
    reader takes its field names from the next record of the file the first
    time they are asked for. *)
Record reader := mkReader { cursor : nat; fieldnames : option (list string) }.

(** [for _ in reader: pass] *)
Definition skip_to_end (file : list (list string)) : reader :=
  mkReader (length file) (head file).

Definition open_log (tail_start : bool) (file : list (list string)) : reader :=
  if tail_start then skip_to_end file else mkReader 0 None.

(** [reader.fieldnames] *)
Definition get_fieldnames (file : list (list string)) (r : reader) : reader :=
  match fieldnames r with
  | Some _ => r
  | None =>
      match file !! cursor r with
      | Some names => mkReader (S (cursor r)) (Some names)
      | None => r
      end
  end.

Section Loop.

Variable E : env.

(** One turn of [while True] on the file as it is now. *)
Definition turn (model : string) (file : list (list string))
    (st : reader * Streak.t) : M (reader * Streak.t) :=
  match file !! cursor st.1 with
  | None => mret st
  | Some line =>
      let r := get_fieldnames file (mkReader (S (cursor st.1)) (fieldnames st.1)) in
      match fieldnames r with
      | None => lift (Raise TypeError)
      | Some names =>
          streak ← Both.evaluate_step E model names st.2 (Both.Line line);
          mret (r, streak)
      end
  end.

(** What happens around the loop: the producer appends records, or the
    loop takes a turn. *)
Inductive tick :=
| Written (records : list (list string))
| Turn.

Fixpoint ticks_from (model : string) (ticks : list tick)
    (file : list (list string)) (st : reader * Streak.t)
  : M (reader * Streak.t) :=
  match ticks with
  | [] => mret st
  | Written records :: ticks' => ticks_from model ticks' (file ++ records) st
  | Turn :: ticks' =>
      st' ← turn model file st;
      ticks_from model ticks' file st'
  end.

(** [evaluate_live(model, tail_start)] on the log [file], through the
    given ticks. *)
Definition evaluate_live (model : string) (tail_start : bool)
    (file : list (list string)) (ticks : list tick) : M (reader * Streak.t) :=
  ticks_from model ticks file (open_log tail_start file, Streak.init).

(** [main]: [--history] replays the log, otherwise the loop starts at
    its end. *)
Definition main (model : string) (history : bool)
    (file : list (list string)) (ticks : list tick) : M (reader * Streak.t) :=
  evaluate_live model (negb history) file ticks.

End Loop.

End Monitor.

(** A poll the live loop passes over: no line, or a line whose [timestamp]
    field is the word [timestamp]. *)
Definition passed_over (fieldnames : list string) (p : Both.poll) : Prop :=
  match p with
  | Both.Nothing => True
  | Both.Line fields =>
      Both.dict (zip fieldnames fields) !! "timestamp" = Some "timestamp"
  end.

#[global] Instance passed_over_dec fieldnames p : Decision (passed_over fieldnames p).
Proof. destruct p; simpl; apply _. Defined.

(** A log as the logger leaves it: the header, then records of three
    fields none of which is the header again. *)
Definition well_formed_log (file : list (list string)) : Prop :=
  ∃ records, file = HEADER :: records
             ∧ Forall (λ r, length r = 3%nat ∧ r ≠ HEADER) records.

(** * Properties *)


(** ** Streak tracker *)

Module StreakFacts.
Import Streak.

Lemma run_snoc events score sentence reason :
  run (events ++ [(score, sentence, reason)])
  = (update score sentence reason (run events)).1.
Proof. unfold run. by rewrite foldl_app. Qed.

(** Unfold one [update] down to its guards and decide them. *)
Ltac crush :=
  unfold update, then_, bad_broken, good_broken, sustained_bad,
    sustained_good, bucket, set_state, POS_THRESH, NEG_THRESH, STREAK_LEN in *;
  simpl in *;
  repeat (case_decide; simpl in *);
  repeat match goal with
    | H : _ ∧ _ |- _ => destruct H
    | H : ¬ (_ ∧ _) |- _ => apply not_and_l in H; destruct H
    | H : ¬ (_ ≠ _) |- _ => apply dec_stable in H
    end;
  try done; try lia; try congruence.

(** After the counter step one counter is zero, whatever came before. *)
Lemma bucket_one_zero score self :
  pos (bucket score self) = 0 ∨ neg (bucket score self) = 0.
Proof. crush. Qed.

Lemma update_counters score sentence reason self :
  0 <= pos self → 0 <= neg self →
  let self' := (update score sentence reason self).1 in
  0 <= pos self' ∧ 0 <= neg self' ∧ (pos self' = 0 ∨ neg self' = 0).
Proof. destruct self as [p n st]. crush. Qed.

Lemma update_at_most_one score sentence reason self :
  (length (update score sentence reason self).2 <= 1)%nat.
Proof. destruct self as [p n [| |]]; crush. Qed.

(** A good score in a neutral trend: count, and promote on the third. *)
Lemma update_good_neutral score sentence reason p n :
  score >= 4 → 0 <= p →
  update score sentence reason {| pos := p; neg := n; state := neutral |}
  = if decide (p = 2)
    then ({| pos := 3; neg := 0; state := good |}, [SustainedGood])
    else ({| pos := p + 1; neg := 0; state := neutral |}, []).
Proof. intros. case_decide; subst; crush. Qed.

End StreakFacts.

(** C1. From the initial state, three scores in a row that are each at
    least 4 leave the trend neutral after the first and the second update,
    which send nothing, and turn it to good on the third, which sends exactly
    the positive-streak notification. *)
Theorem streak_promotion (s1 s2 s3 : Z) (sent1 sent2 sent3 : string)
    (r1 r2 r3 : json) :
  s1 >= 4 → s2 >= 4 → s3 >= 4 →
  let u1 := Streak.update s1 sent1 r1 Streak.init in
  let u2 := Streak.update s2 sent2 r2 u1.1 in
  let u3 := Streak.update s3 sent3 r3 u2.1 in
  Streak.state Streak.init = neutral
  ∧ u1.2 = [] ∧ Streak.state u1.1 = neutral
  ∧ u2.2 = [] ∧ Streak.state u2.1 = neutral
  ∧ u3.2 = [SustainedGood] ∧ Streak.state u3.1 = good.
Proof.
  intros H1 H2 H3. cbv zeta. unfold Streak.init.
  rewrite (StreakFacts.update_good_neutral s1) by lia. simpl.
  rewrite (StreakFacts.update_good_neutral s2) by lia. simpl.
  rewrite (StreakFacts.update_good_neutral s3) by lia. simpl.
  done.
Qed.

Lemma streak_promotion_witness :
  let u1 := Streak.update 4 "a" JNull Streak.init in
  let u2 := Streak.update 5 "b" JNull u1.1 in
  let u3 := Streak.update 4 "c" JNull u2.1 in
  Streak.state Streak.init = neutral
  ∧ u1.2 = [] ∧ Streak.state u1.1 = neutral
  ∧ u2.2 = [] ∧ Streak.state u2.1 = neutral
  ∧ u3.2 = [SustainedGood] ∧ Streak.state u3.1 = good.
Proof. apply (streak_promotion 4 5 4); lia. Defined.

(** C6. In every state, an update with score 0 sets both counters to 0,
    sends no notification and keeps the trend. *)
Theorem fallback_score_is_neutral (self : Streak.t) (sentence : string)
    (reason : json) :
  Streak.update 0 sentence reason self
  = ({| Streak.pos := 0; Streak.neg := 0; Streak.state := Streak.state self |}, []).
Proof. destruct self as [p n [| |]]; StreakFacts.crush. Qed.

(** C9. After any sequence of updates from the initial state both counters
    are non-negative and one of them is 0, and a further update with any
    score sends at most one notification. *)
Theorem streak_invariant (events : list (Z * string * json)) :
  let self := Streak.run events in
  0 <= Streak.pos self ∧ 0 <= Streak.neg self
  ∧ (Streak.pos self = 0 ∨ Streak.neg self = 0)
  ∧ ∀ score sentence reason,
      (length (Streak.update score sentence reason self).2 <= 1)%nat.
Proof.
  induction events as [|[[score sentence] reason] events IH] using rev_ind.
  - cbn. repeat split; try lia; try by left.
    intros. apply StreakFacts.update_at_most_one.
  - rewrite StreakFacts.run_snoc. cbv zeta in IH.
    destruct IH as (Hp & Hn & _ & _).
    pose proof (StreakFacts.update_counters score sentence reason _ Hp Hn)
      as (Hp' & Hn' & Hz).
    cbv zeta. repeat split; try done.
    intros. apply StreakFacts.update_at_most_one.
Qed.

(** ** Sentence mapper *)

Lemma app_cons (a : ascii) (s r : string) :
  String a s +:+ r = String a (s +:+ r).
Proof. reflexivity. Qed.

Lemma startswith_app (p s : string) :
  startswith p s = true ↔ ∃ r, s = p +:+ r.
Proof.
  revert s. induction p as [|a p IH]; intros s; simpl.
  - split; [intros _; by exists s | done].
  - destruct s as [|b s]; [split; [done | intros [r ?]; discriminate]|].
    destruct (Ascii.eqb_spec a b) as [->|Hne].
    + rewrite IH. split; intros [r Hr]; exists r; rewrite app_cons in *; congruence.
    + split; [done | intros [r Hr]; rewrite app_cons in Hr; congruence].
Qed.

(** The three prefixes exclude one another, so the order of the tests in
    [sentence_from_row] decides nothing. *)
Lemma prefixes_disjoint (event : string) :
  (startswith "browser_tab" event = true → startswith "app_switch" event = false)
  ∧ (startswith "browser_tab" event = true → startswith "app_usage" event = false)
  ∧ (startswith "app_switch" event = true → startswith "app_usage" event = false).
Proof.
  repeat split; intros [r ->]%startswith_app;
    apply not_true_is_false; intros [r' Hr']%startswith_app;
    repeat rewrite app_cons in Hr'; discriminate.
Qed.

Lemma split_hd_no_sep (sep : ascii) (s : string) :
  has_char sep s = false → split sep s = [s].
Proof.
  induction s as [|c s IH]; simpl; [done|].
  intros [Hc Hs]%orb_false_elim. rewrite Hc, (IH Hs). done.
Qed.

Lemma split_hd_sep (sep : ascii) (s rest : string) :
  has_char sep s = false →
  hd "" (split sep (s +:+ String sep rest)) = s.
Proof.
  induction s as [|c s IH]; simpl.
  - intros _. change ("" +:+ String sep rest) with (String sep rest).
    simpl. by rewrite Ascii.eqb_refl.
  - intros [Hc Hs]%orb_false_elim. rewrite Hc.
    specialize (IH Hs).
    destruct (split sep (s +:+ String sep rest)); simpl in *; by subst.
Qed.

Lemma first_field (sep : ascii) (text field0 : string) :
  up_to_first sep text field0 → hd "" (split sep text) = field0.
Proof.
  intros [Hno [-> | [rest ->]]].
  - by rewrite split_hd_no_sep.
  - by apply split_hd_sep.
Qed.

(** *** Trimming *)

Lemma string_app_nil_r (s : string) : s +:+ "" = s.
Proof. induction s as [|a s IH]; [done|]. by rewrite app_cons, IH. Qed.

Lemma string_app_assoc (s t u : string) : (s +:+ t) +:+ u = s +:+ (t +:+ u).
Proof. induction s as [|a s IH]; [done|]. by rewrite !app_cons, IH. Qed.

Lemma string_rev_app_acc (s t : string) : String.rev_app s t = String.rev s +:+ t.
Proof.
  unfold String.rev. revert t. induction s as [|a s IH]; intros t; [done|].
  simpl. rewrite (IH (String a t)), (IH (String a "")), string_app_assoc. done.
Qed.

Lemma string_rev_cons (a : ascii) (s : string) :
  String.rev (String a s) = String.rev s +:+ String a "".
Proof. unfold String.rev at 1. simpl. apply string_rev_app_acc. Qed.

Lemma string_rev_app (s t : string) :
  String.rev (s +:+ t) = String.rev t +:+ String.rev s.
Proof.
  induction s as [|a s IH]; [by rewrite string_app_nil_r|].
  by rewrite app_cons, !string_rev_cons, IH, string_app_assoc.
Qed.

Lemma string_rev_involutive (s : string) : String.rev (String.rev s) = s.
Proof.
  induction s as [|a s IH]; [done|]. by rewrite string_rev_cons, string_rev_app, IH.
Qed.

Lemma made_of_app (T : list string) (s t : string) :
  made_of T s → made_of T t → made_of T (s +:+ t).
Proof.
  induction 1 as [|w s Hw Hs IH]; intros Ht; [done|].
  rewrite string_app_assoc. constructor; auto.
Qed.

Lemma made_of_rev (T : list string) (s : string) :
  made_of (String.rev <$> T) s → made_of T (String.rev s).
Proof.
  induction 1 as [|w s Hw Hs IH]; [constructor|].
  rewrite string_rev_app. apply made_of_app; [done|].
  apply list_elem_of_fmap in Hw as (w' & -> & Hw').
  rewrite string_rev_involutive, <- (string_app_nil_r w'). by repeat constructor.
Qed.

(** What [drop_ws] does, for any table [T] of the characters that [w1],
    [w2] and [w3] recognise. *)
Section DropWs.

Variable w1 : ascii → bool.
Variable w2 : ascii → ascii → bool.
Variable w3 : ascii → ascii → ascii → bool.
Variable T : list string.

Hypothesis T1 : ∀ a, String a "" ∈ T ↔ w1 a = true.
Hypothesis T2 : ∀ a b, String a (String b "") ∈ T ↔ w2 a b = true.
Hypothesis T3 : ∀ a b c, String a (String b (String c "")) ∈ T ↔ w3 a b c = true.
Hypothesis Tlen : ∀ w, w ∈ T → (1 ≤ String.length w ≤ 3)%nat.

Lemma drop_ws_stops (s : string) :
  match s with
  | String a s1 =>
      w1 a = false
      ∧ match s1 with
        | String b s2 =>
            w2 a b = false
            ∧ match s2 with
              | String c _ => w3 a b c = false
              | "" => True
              end
        | "" => True
        end
  | "" => True
  end →
  ∀ w rest, w ∈ T → s ≠ w +:+ rest.
Proof.
  intros Hs w rest Hw ->. pose proof (Tlen w Hw) as Hlen.
  destruct w as [|a [|b [|c [|d w]]]]; simpl in Hlen; try lia.
  - apply T1 in Hw. rewrite app_cons in Hs. destruct Hs as [Hs _]. congruence.
  - apply T2 in Hw. rewrite !app_cons in Hs. destruct Hs as (_ & Hs & _).
    congruence.
  - apply T3 in Hw. rewrite !app_cons in Hs. destruct Hs as (_ & _ & Hs).
    congruence.
Qed.

Lemma drop_ws_bounded (n : nat) (s : string) :
  (String.length s ≤ n)%nat →
  ∃ l, s = l +:+ drop_ws w1 w2 w3 s
       ∧ made_of T l
       ∧ ∀ w rest, w ∈ T → drop_ws w1 w2 w3 s ≠ w +:+ rest.
Proof.
  revert s. induction n as [|n IH]; intros s Hn.
  { destruct s; [|simpl in Hn; lia]. exists "".
    split; [done|]. split; [constructor|]. by apply drop_ws_stops. }
  destruct s as [|a s1].
  { exists "". split; [done|]. split; [constructor|]. by apply drop_ws_stops. }
  simpl in Hn. simpl drop_ws. destruct (w1 a) eqn:H1.
  { destruct (IH s1) as (l & Hl & Hb & Hno); [lia|].
    exists (String a l). split; [by rewrite app_cons, <- Hl|].
    split; [by apply (made_of_cons T (String a "") l); [apply T1|] | done]. }
  destruct s1 as [|b s2].
  { exists "". split; [done|]. split; [constructor|]. by apply drop_ws_stops. }
  simpl in Hn. destruct (w2 a b) eqn:H2.
  { destruct (IH s2) as (l & Hl & Hb & Hno); [lia|].
    exists (String a (String b l)).
    split; [by rewrite !app_cons, <- Hl|].
    split; [by apply (made_of_cons T (String a (String b "")) l); [apply T2|]
           | done]. }
  destruct s2 as [|c s3].
  { exists "". split; [done|]. split; [constructor|]. by apply drop_ws_stops. }
  simpl in Hn. destruct (w3 a b c) eqn:H3.
  { destruct (IH s3) as (l & Hl & Hb & Hno); [lia|].
    exists (String a (String b (String c l))).
    split; [by rewrite !app_cons, <- Hl|].
    split; [by apply (made_of_cons T (String a (String b (String c ""))) l);
              [apply T3|]
           | done]. }
  exists "". split; [done|]. split; [constructor|]. by apply drop_ws_stops.
Qed.

Lemma drop_ws_spec (s : string) :
  ∃ l, s = l +:+ drop_ws w1 w2 w3 s
       ∧ made_of T l
       ∧ ∀ w rest, w ∈ T → drop_ws w1 w2 w3 s ≠ w +:+ rest.
Proof. by apply (drop_ws_bounded (String.length s)). Qed.

End DropWs.

Lemma byte_eq (a : ascii) (n : nat) : byte a = n → a = ascii_of_nat n.
Proof. intros <-. unfold byte. by rewrite ascii_nat_embedding. Qed.

Lemma whitespace_cases (w : string) :
  w ∈ WHITESPACE →
  (∃ a, w = String a "" ∧ ws1 a = true)
  ∨ (∃ a b, w = String a (String b "") ∧ ws2 a b = true)
  ∨ (∃ a b c, w = String a (String b (String c "")) ∧ ws3 a b c = true).
Proof.
  revert w. apply Forall_forall.
  unfold WHITESPACE. cbn [fmap list_fmap utf8 foldr].
  repeat (constructor;
    [ first [ left; eexists; split; [reflexivity | vm_compute; reflexivity]
            | right; left; eexists _, _; split;
              [reflexivity | vm_compute; reflexivity]
            | right; right; eexists _, _, _; split;
              [reflexivity | vm_compute; reflexivity] ] | ]).
  constructor.
Qed.

Lemma whitespace_test (w : string) :
  bool_decide (w ∈ WHITESPACE) = true → w ∈ WHITESPACE.
Proof. apply bool_decide_eq_true_1. Qed.

Ltac in_whitespace := apply whitespace_test; vm_compute; reflexivity.

Lemma whitespace_1 (a : ascii) : String a "" ∈ WHITESPACE ↔ ws1 a = true.
Proof.
  split.
  - intros [(a' & [= ->] & Ha) | [(a' & b' & [=] & _) | (a' & b' & c' & [=] & _)]]%whitespace_cases.
    done.
  - unfold ws1. cbv zeta. intros Ha.
    rewrite (byte_eq a (byte a) eq_refl).
    assert (byte a ∈ [9; 10; 11; 12; 13; 28; 29; 30; 31; 32]%nat) as Hn.
    { apply (bool_decide_unpack _).
      destruct (byte a) as [|n]; [done|].
      do 32 (destruct n as [|n]; [try done; vm_compute; exact I|]).
      exfalso. revert Ha. clear. intros Ha.
      apply orb_true_iff in Ha as [Ha|Ha]; apply andb_true_iff in Ha as [_ Ha];
        apply Nat.leb_le in Ha; lia. }
    rewrite !elem_of_cons, elem_of_nil in Hn.
    repeat (destruct Hn as [-> | Hn]); try done; in_whitespace.
Qed.

Lemma whitespace_2 (a b : ascii) :
  String a (String b "") ∈ WHITESPACE ↔ ws2 a b = true.
Proof.
  split.
  - intros [(a' & [=] & _) | [(a' & b' & [= -> ->] & Hab) | (a' & b' & c' & [=] & _)]]%whitespace_cases.
    done.
  - unfold ws2. intros [Ha Hb]%andb_true_iff.
    apply Nat.eqb_eq, byte_eq in Ha as ->.
    apply orb_true_iff in Hb as [Hb|Hb]; apply Nat.eqb_eq, byte_eq in Hb as ->;
      in_whitespace.
Qed.

Lemma whitespace_3 (a b c : ascii) :
  String a (String b (String c "")) ∈ WHITESPACE ↔ ws3 a b c = true.
Proof.
  split.
  - intros [(a' & [=] & _) | [(a' & b' & [=] & _) | (a' & b' & c' & [= -> -> ->] & Habc)]]%whitespace_cases.
    done.
  - unfold ws3. cbv beta iota zeta. intros H.
    repeat match goal with
           | Hx : (_ || _) = true |- _ => apply orb_true_iff in Hx as [Hx|Hx]
           | Hx : (_ && _) = true |- _ => apply andb_true_iff in Hx as [? ?]
           | Hx : (byte _ =? _)%nat = true |- _ =>
               apply Nat.eqb_eq, byte_eq in Hx; subst
           end;
      try in_whitespace.
    match goal with
    | Hlo : (128 <=? byte c)%nat = true, Hhi : (byte c <=? 138)%nat = true |- _ =>
        apply Nat.leb_le in Hlo, Hhi;
        assert (byte c = 128 ∨ byte c = 129 ∨ byte c = 130 ∨ byte c = 131
                ∨ byte c = 132 ∨ byte c = 133 ∨ byte c = 134 ∨ byte c = 135
                ∨ byte c = 136 ∨ byte c = 137 ∨ byte c = 138)%nat as Hc by lia;
        clear Hlo Hhi
    end.
    repeat (destruct Hc as [Hc | Hc]; [apply byte_eq in Hc; subst; in_whitespace|]).
    apply byte_eq in Hc; subst; in_whitespace.
Qed.

Lemma whitespace_length (w : string) :
  w ∈ WHITESPACE → (1 ≤ String.length w ≤ 3)%nat.
Proof.
  intros [(a & -> & _) | [(a & b & -> & _) | (a & b & c & -> & _)]]%whitespace_cases;
    simpl; lia.
Qed.

Lemma lstrip_spec (s : string) :
  ∃ l, s = l +:+ lstrip s
       ∧ made_of WHITESPACE l
       ∧ ∀ w rest, w ∈ WHITESPACE → lstrip s ≠ w +:+ rest.
Proof.
  apply drop_ws_spec;
    auto using whitespace_1, whitespace_2, whitespace_3, whitespace_length.
Qed.

Lemma rstrip_spec (s : string) :
  ∃ r, s = rstrip s +:+ r
       ∧ made_of WHITESPACE r
       ∧ ∀ w rest, w ∈ WHITESPACE → rstrip s ≠ rest +:+ w.
Proof.
  unfold rstrip.
  destruct (drop_ws_spec ws1 (λ b a, ws2 a b) (λ c b a, ws3 a b c)
              (String.rev <$> WHITESPACE)) with (s := String.rev s)
    as (l & Hl & Hb & Hno).
  - intros a. rewrite <- whitespace_1, list_elem_of_fmap. split.
    + intros (w & Hw & Hin). apply (f_equal String.rev) in Hw.
      rewrite string_rev_involutive in Hw. by subst.
    + intros Hin. by exists (String a "").
  - intros a b. rewrite <- whitespace_2, list_elem_of_fmap. split.
    + intros (w & Hw & Hin). apply (f_equal String.rev) in Hw.
      rewrite string_rev_involutive in Hw. by subst.
    + intros Hin. by exists (String b (String a "")).
  - intros a b c. rewrite <- whitespace_3, list_elem_of_fmap. split.
    + intros (w & Hw & Hin). apply (f_equal String.rev) in Hw.
      rewrite string_rev_involutive in Hw. by subst.
    + intros Hin. by exists (String c (String b (String a ""))).
  - intros w (w' & -> & Hw')%list_elem_of_fmap.
    apply whitespace_cases in Hw'
      as [(a & -> & _) | [(a & b & -> & _) | (a & b & c & -> & _)]];
      simpl; lia.
  - exists (String.rev l). split; [|split].
    + by rewrite <- string_rev_app, <- Hl, string_rev_involutive.
    + by apply made_of_rev.
    + intros w rest Hw Heq. apply (f_equal String.rev) in Heq.
      rewrite string_rev_involutive, string_rev_app in Heq.
      apply (Hno (String.rev w) (String.rev rest)); [|done].
      apply list_elem_of_fmap. by exists w.
Qed.

(** [strip] trims, in the sense of [trimmed]. *)
Lemma strip_trimmed (s : string) : trimmed s (strip s).
Proof.
  unfold strip.
  destruct (lstrip_spec s) as (l & Hl & Hbl & Hnol).
  destruct (rstrip_spec (lstrip s)) as (r & Hr & Hbr & Hnor).
  exists l, r. split; [by rewrite <- Hr|].
  split; [done|]. split; [done|]. split; [|done].
  intros w rest Hw Heq. apply (Hnol w (rest +:+ r)); [done|].
  by rewrite Hr at 1; rewrite Heq, string_app_assoc.
Qed.

(** C8. For a row whose [event] and [details] are strings, with [field0]
    the part of [details] before its first [|] and [t] what is left of
    [field0] once the white space at both ends is removed: an event kind
    that begins with [browser_tab] gives [Visited], [field0] between double
    quotes, and [in browser]; one that begins with [app_switch] gives
    [Switched to t]; one that begins with [app_usage] gives [Used t]; and an
    event kind that begins with none of the three is returned as it is. *)
Theorem sentence_mapper_rules {R} `{Row R} (row : R)
    (event details field0 : string) :
  getitem row "event" = Ok (CStr event) →
  get row "details" (CStr "") = CStr details →
  up_to_first "|" details field0 →
  ∃ t, trimmed field0 t
    ∧ ((∃ rest, event = "browser_tab" +:+ rest) →
       sentence_from_row row
       = Ok ("Visited " +:+ String "034" (field0 +:+ String "034" " in browser")))
    ∧ ((∃ rest, event = "app_switch" +:+ rest) →
       sentence_from_row row = Ok ("Switched to " +:+ t))
    ∧ ((∃ rest, event = "app_usage" +:+ rest) →
       sentence_from_row row = Ok ("Used " +:+ t))
    ∧ ((∀ rest, event ≠ "browser_tab" +:+ rest) →
       (∀ rest, event ≠ "app_switch" +:+ rest) →
       (∀ rest, event ≠ "app_usage" +:+ rest) →
       sentence_from_row row = Ok event).
Proof.
  intros Hev Hdet Hf0%first_field.
  pose proof (prefixes_disjoint event) as (Hbs & Hbu & Hsu).
  exists (strip field0). split; [apply strip_trimmed|].
  unfold sentence_from_row. rewrite Hev, Hdet. cbn [mbind result_bind].
  unfold first_clause, str_strip. rewrite Hf0. cbn [str mbind result_bind].
  repeat split.
  - by intros ->%startswith_app.
  - intros Hs%startswith_app.
    destruct (startswith "browser_tab" event) eqn:Hb.
    + rewrite (Hbs eq_refl) in Hs. discriminate.
    + by rewrite Hs.
  - intros Hu%startswith_app.
    destruct (startswith "browser_tab" event) eqn:Hb.
    + rewrite (Hbu eq_refl) in Hu. discriminate.
    + destruct (startswith "app_switch" event) eqn:Hs.
      * rewrite (Hsu eq_refl) in Hu. discriminate.
      * by rewrite Hu.
  - intros Hb Hs Hu.
    destruct (startswith "browser_tab" event) eqn:Eb;
      [apply startswith_app in Eb as [r ->]; by destruct (Hb r)|].
    destruct (startswith "app_switch" event) eqn:Es;
      [apply startswith_app in Es as [r ->]; by destruct (Hs r)|].
    destruct (startswith "app_usage" event) eqn:Eu;
      [apply startswith_app in Eu as [r ->]; by destruct (Hu r)|].
    done.
Qed.

Lemma sentence_mapper_rules_witness :
  trimmed "  Writer  " "Writer"
  ∧ sentence_from_row (R := series cell)
      [("timestamp", CStr "2025-05-01 09:00:00"); ("event", CStr "app_usage");
       ("details", CStr "  Writer  |900.0")]
    = Ok "Used Writer".
Proof.
  destruct (sentence_mapper_rules (R := series cell)
              [("timestamp", CStr "2025-05-01 09:00:00");
               ("event", CStr "app_usage");
               ("details", CStr "  Writer  |900.0")]
              "app_usage" "  Writer  |900.0" "  Writer  ")
    as (t & Ht & _ & _ & Hu & _).
  - vm_compute; reflexivity.
  - vm_compute; reflexivity.
  - split; [reflexivity | right; by exists "900.0"].
  - specialize (Hu (ex_intro _ "" eq_refl)).
    assert (sentence_from_row (R := series cell)
              [("timestamp", CStr "2025-05-01 09:00:00");
               ("event", CStr "app_usage");
               ("details", CStr "  Writer  |900.0")]
            = Ok "Used Writer") as Hrun by (vm_compute; reflexivity).
    rewrite Hrun in Hu. injection Hu as Hu. change ("Writer" = t) in Hu.
    subst t. split; [exact Ht | reflexivity].
Defined.

(** C7. The mapper is not total on rows whose [details] is not a string.
    An empty [details] field comes out of [pandas.read_csv] as NaN;
    [first_clause] passes it through, and the [browser_tab] rule formats it,
    but the [app_switch] and [app_usage] rules call [.strip()] on it. *)
Theorem mapper_raises_on_nan_details :
  sentence_from_row (R := series cell)
    [("timestamp", CStr "2025-05-01 09:00:00"); ("event", CStr "app_switch");
     ("details", CNaN)]
  = Raise (AttributeError "strip")
  ∧ sentence_from_row (R := series cell)
      [("timestamp", CStr "2025-05-01 09:00:05"); ("event", CStr "app_usage");
       ("details", CNaN)]
    = Raise (AttributeError "strip")
  ∧ first_clause CNaN = CNaN
  ∧ sentence_from_row (R := series cell)
      [("timestamp", CStr "2025-05-01 09:00:10"); ("event", CStr "browser_tab");
       ("details", CNaN)]
    = Ok ("Visited " +:+ quote +:+ "nan" +:+ quote +:+ " in browser").
Proof. repeat split; vm_compute; reflexivity. Qed.

(** ** Classifier and cache *)

Section ClassifierFacts.

Variable E : env.
Variable PROMPT_TMPL : string → string → string → string.
Variable PHILOSOPHY : string.

Local Abbreviation classify' := (classify E PROMPT_TMPL PHILOSOPHY).
Local Abbreviation call_llm' := (call_llm E PROMPT_TMPL PHILOSOPHY).
Local Abbreviation classify_each' := (classify_each E PROMPT_TMPL PHILOSOPHY).

(** Cache hit: the file is parsed and nothing else happens. *)
Lemma classify_hit (activity model : string) (w : world) (text : string) :
  files w !! cache_file E activity = Some text →
  classify' activity model w
  = (from_option Ok (Raise JSONDecodeError) (json_loads E text), w).
Proof.
  intros Hf. unfold classify, path_exists, read_text, loads, lift.
  unfold mbind, M_bind. rewrite Hf. simpl. rewrite Hf. done.
Qed.

(** Cache miss: one request, then the result or the fallback is written. *)
Lemma classify_miss (activity model : string) (w : world) :
  files w !! cache_file E activity = None →
  classify' activity model w
  = match (call_llm' activity model w).1 with
    | Ok v =>
        (Ok v, mkWorld (<[cache_file E activity := json_dumps E v]> (files w))
                 (S (requests w)) (stdout w) (sent w))
    | Raise e =>
        (Ok llm_error,
         mkWorld (<[cache_file E activity := json_dumps E llm_error]> (files w))
           (S (requests w)) (stdout w ++ [LLMError e]) (sent w))
    end.
Proof.
  intros Hf.
  unfold classify, call_llm, path_exists, try_except, create, loads,
    lift, print, write_text.
  unfold mbind, mret, M_bind, M_ret. rewrite Hf. simpl.
  destruct (chat_completions_create E _ _ _) as [body|]; simpl; [|done].
  destruct (json_loads E body); done.
Qed.

(** What the guarded call comes to: the parsed body of the response, or an
    exception when the request fails or the body is not JSON. *)
Lemma call_llm_result (activity model : string) (w : world) :
  (call_llm' activity model w).1
  = match chat_completions_create E (requests w) model
            (PROMPT_TMPL (list_str CATEGORIES) PHILOSOPHY activity) with
    | Some body => from_option Ok (Raise JSONDecodeError) (json_loads E body)
    | None => Raise APIError
    end.
Proof.
  unfold call_llm, create, loads, lift. unfold mbind, M_bind. simpl.
  by destruct (chat_completions_create E _ _ _).
Qed.

(** [classify] never rewrites a file that is there. *)
Lemma classify_keeps_files (activity model path text : string) (w : world) :
  files w !! path = Some text →
  files (classify' activity model w).2 !! path = Some text.
Proof.
  intros Hp. destruct (files w !! cache_file E activity) as [t|] eqn:Hf.
  - by rewrite (classify_hit _ _ _ _ Hf).
  - rewrite (classify_miss _ _ _ Hf).
    assert (cache_file E activity ≠ path) by congruence.
    destruct (call_llm' activity model w).1; simpl; by rewrite lookup_insert_ne.
Qed.

Lemma classify_each_keeps_files (calls : list (string * string))
    (path text : string) (w : world) :
  files w !! path = Some text →
  files (classify_each' calls w) !! path = Some text.
Proof.
  revert w. induction calls as [|[a m] calls IH]; intros w Hp; [done|].
  simpl. apply IH. by apply classify_keeps_files.
Qed.


(** C5. For a sentence that has no file [.cache/<SHA-1 of the sentence>.json],
    the first call sends one request, takes as its result the parsed body of
    the response, or the fallback when there is none, and writes that
    result, as JSON text, to that file and to no other.  If the result
    survives [json.dumps] then [json.loads], a second call, for any model
    and whatever the service would answer now, returns the same result and
    leaves the world as it is: no request, no write. *)
Theorem cache_second_call (activity model : string) (w : world) :
  files w !! (".cache/" +:+ sha1_hexdigest E activity +:+ ".json") = None →
  ∃ v w1,
    classify' activity model w = (Ok v, w1)
    ∧ requests w1 = S (requests w)
    ∧ v = match chat_completions_create E (requests w) model
                  (PROMPT_TMPL (list_str CATEGORIES) PHILOSOPHY activity)
                ≫= json_loads E
          with
          | Some answer => answer
          | None => JDict [("category", JStr "unknown"); ("score", JInt 0);
                           ("reason", JStr "llm_error")]
          end
    ∧ files w1
      = <[".cache/" +:+ sha1_hexdigest E activity +:+ ".json" := json_dumps E v]>
          (files w)
    ∧ (json_loads E (json_dumps E v) = Some v →
       ∀ model', classify' activity model' w1 = (Ok v, w1)).
Proof.
  intros Hf. rewrite (classify_miss _ _ _ Hf), call_llm_result.
  assert (∀ v files' n out ns,
            files' = <[cache_file E activity := json_dumps E v]> (files w) →
            json_loads E (json_dumps E v) = Some v →
            ∀ model', classify' activity model' (mkWorld files' n out ns)
                      = (Ok v, mkWorld files' n out ns)) as Hagain.
  { intros v files' n out ns -> Hrt model'.
    erewrite classify_hit; [|by apply lookup_insert_eq]. by rewrite Hrt. }
  destruct (chat_completions_create E _ _ _) as [body|]; simpl;
    [destruct (json_loads E body) as [v|]; simpl|];
    eexists _, _; (split; [reflexivity|]); simpl;
    (split; [reflexivity|]); (split; [reflexivity|]);
    (split; [reflexivity|]); by apply Hagain.
Qed.

(** C10. When a sentence has no file [.cache/<SHA-1 of the sentence>.json]
    and the service call for it fails, the request failing or its body not
    being JSON, [classify] returns the fallback (category [unknown], score
    [0], reason [llm_error]) and writes it to that file and to no other.
    After any further [classify] calls, a call for the same sentence returns
    the fallback and leaves the world as it is, so the service is not asked
    again. *)
Theorem fallback_is_cached (activity model : string) (w : world) :
  files w !! (".cache/" +:+ sha1_hexdigest E activity +:+ ".json") = None →
  chat_completions_create E (requests w) model
    (PROMPT_TMPL (list_str CATEGORIES) PHILOSOPHY activity) = None
  ∨ (∃ body,
       chat_completions_create E (requests w) model
         (PROMPT_TMPL (list_str CATEGORIES) PHILOSOPHY activity) = Some body
       ∧ json_loads E body = None) →
  json_loads E
    (json_dumps E (JDict [("category", JStr "unknown"); ("score", JInt 0);
                          ("reason", JStr "llm_error")]))
  = Some (JDict [("category", JStr "unknown"); ("score", JInt 0);
                 ("reason", JStr "llm_error")]) →
  ∃ w1,
    classify' activity model w
    = (Ok (JDict [("category", JStr "unknown"); ("score", JInt 0);
                  ("reason", JStr "llm_error")]), w1)
    ∧ requests w1 = S (requests w)
    ∧ files w1
      = <[".cache/" +:+ sha1_hexdigest E activity +:+ ".json"
          := json_dumps E (JDict [("category", JStr "unknown"); ("score", JInt 0);
                                  ("reason", JStr "llm_error")])]> (files w)
    ∧ ∀ (calls : list (string * string)) (model' : string),
        let w2 := classify_each' calls w1 in
        classify' activity model' w2
        = (Ok (JDict [("category", JStr "unknown"); ("score", JInt 0);
                      ("reason", JStr "llm_error")]), w2).
Proof.
  intros Hf Hfail Hrt. rewrite (classify_miss _ _ _ Hf).
  assert (∃ e, (call_llm' activity model w).1 = Raise e) as [e ->].
  { rewrite call_llm_result.
    destruct Hfail as [-> | (body & -> & ->)]; simpl; by eexists. }
  eexists. split; [reflexivity|]. simpl.
  split; [reflexivity|]. split; [reflexivity|].
  intros calls model'. cbv zeta.
  erewrite classify_hit; [by rewrite Hrt|].
  apply classify_each_keeps_files. simpl. by rewrite lookup_insert_eq.
Qed.

End ClassifierFacts.

(** *** The amended C3, C5 and C10 on a run *)



Lemma cache_second_call_witness :
  let E := scripted [Some (Json.dumps praise); Some (Json.dumps blame)] in
  ∃ w1,
    classify E Evaluator.PROMPT_TMPL Evaluator.PHILOSOPHY
      "Used Writer" Evaluator.DEFAULT_MODEL fresh = (Ok praise, w1)
    ∧ requests w1 = 1%nat
    ∧ files w1
      = {[ ".cache/2fe72f861c5923efb7d6c44aa09e3b4e60a3a765.json"
           := Json.dumps praise ]}
    ∧ classify E Evaluator.PROMPT_TMPL Evaluator.PHILOSOPHY
        "Used Writer" Evaluator.DEFAULT_MODEL w1 = (Ok praise, w1).
Proof.
  intros E.
  destruct (cache_second_call E Evaluator.PROMPT_TMPL Evaluator.PHILOSOPHY
              "Used Writer" Evaluator.DEFAULT_MODEL fresh)
    as (v & w1 & Hc & Hreq & Hv & Hfiles & Hagain).
  - vm_compute; reflexivity.
  - assert (v = praise) as -> by (rewrite Hv; vm_compute; reflexivity).
    exists w1. split; [exact Hc|]. split; [exact Hreq|].
    split; [|apply Hagain; vm_compute; reflexivity].
    rewrite Hfiles.
    assert (".cache/" +:+ sha1_hexdigest E "Used Writer" +:+ ".json"
            = ".cache/2fe72f861c5923efb7d6c44aa09e3b4e60a3a765.json") as ->
      by (vm_compute; reflexivity).
    reflexivity.
Defined.

Lemma fallback_is_cached_witness :
  let E := scripted [None; Some (Json.dumps praise); Some (Json.dumps blame)] in
  ∃ w1,
    classify E Both.PROMPT_TMPL Both.PHILOSOPHY
      "Used Writer" Both.DEFAULT_MODEL fresh = (Ok llm_error, w1)
    ∧ files w1
      = {[ ".cache/2fe72f861c5923efb7d6c44aa09e3b4e60a3a765.json"
           := Json.dumps llm_error ]}
    ∧ let w2 := classify_each E Both.PROMPT_TMPL Both.PHILOSOPHY
                  [("Switched to Mail", Both.DEFAULT_MODEL)] w1 in
      classify E Both.PROMPT_TMPL Both.PHILOSOPHY
        "Used Writer" Both.DEFAULT_MODEL w2 = (Ok llm_error, w2).
Proof.
  intros E.
  destruct (fallback_is_cached E Both.PROMPT_TMPL Both.PHILOSOPHY
              "Used Writer" Both.DEFAULT_MODEL fresh)
    as (w1 & Hc & _ & Hfiles & Hlater).
  - vm_compute; reflexivity.
  - left. vm_compute; reflexivity.
  - vm_compute; reflexivity.
  - exists w1. split; [exact Hc|].
    split; [|apply Hlater].
    rewrite Hfiles.
    assert (".cache/" +:+ sha1_hexdigest E "Used Writer" +:+ ".json"
            = ".cache/2fe72f861c5923efb7d6c44aa09e3b4e60a3a765.json") as ->
      by (vm_compute; reflexivity).
    reflexivity.
Defined.

(** ** Drivers *)

(** The live loop drops a row whose [timestamp] field is the word
    [timestamp] before anything looks at it. *)
Lemma live_skips_header (E : env) (model : string)
    (fieldnames fields : list string) (streak : Streak.t) (w : world) :
  Both.dict (zip fieldnames fields) !! "timestamp" = Some "timestamp" →
  Both.evaluate_step E model fieldnames streak (Both.Line fields) w
  = (Ok streak, w).
Proof. intros Hts. unfold Both.evaluate_step. by rewrite decide_True. Qed.

(** C2. The batch driver has no such test.  On a log made of two logs put
    end to end, the second header comes out of [read_csv] as a row of three
    strings; [process] maps it to the sentence [event], classifies it (a
    second request, a cache file for [event]), counts its score in the
    streak and writes it to the output with the three [ai_] fields. *)
Theorem batch_scores_header_row :
  let E := scripted [Some (Json.dumps praise); Some (Json.dumps blame)] in
  let df : list (series cell) :=
    [ [("timestamp", CStr "2025-05-01 09:00:00"); ("event", CStr "app_switch");
       ("details", CStr "Writer")];
      [("timestamp", CStr "timestamp"); ("event", CStr "event");
       ("details", CStr "details")] ] in
  let run := Evaluator.process E df "scored.csv" Evaluator.DEFAULT_MODEL None fresh in
  run.1
  = Ok [ [("timestamp", Evaluator.VCell (CStr "2025-05-01 09:00:00"));
          ("event", Evaluator.VCell (CStr "app_switch"));
          ("details", Evaluator.VCell (CStr "Writer"));
          ("ai_category", Evaluator.VJson (JStr "deep_work"));
          ("ai_score", Evaluator.VJson (JInt 5));
          ("ai_reason", Evaluator.VJson (JStr "creative work"))];
         [("timestamp", Evaluator.VCell (CStr "timestamp"));
          ("event", Evaluator.VCell (CStr "event"));
          ("details", Evaluator.VCell (CStr "details"));
          ("ai_category", Evaluator.VJson (JStr "vice"));
          ("ai_score", Evaluator.VJson (JInt (-5)));
          ("ai_reason", Evaluator.VJson (JStr "herd distraction"))] ]
  ∧ requests run.2 = 2%nat
  ∧ files run.2 !! cache_file E "event" = Some (Json.dumps blame)
  ∧ (Evaluator.for_rows E Evaluator.DEFAULT_MODEL df (Streak.init, []) fresh).1
    ≫= (λ acc, Ok acc.1)
    = Ok {| Streak.pos := 0; Streak.neg := 1; Streak.state := neutral |}.
Proof. repeat split; vm_compute; reflexivity. Qed.

Lemma series_set_fresh {A} (k : string) (v : A) (row : series A) :
  series_lookup k row = None → series_set k v row = row ++ [(k, v)].
Proof.
  induction row as [|[k' v'] row IH]; simpl; [done|].
  case_decide; [done|]. intros Hk. by rewrite IH.
Qed.

Lemma series_lookup_fmap {A B} (f : A → B) (k : string) (row : series A) :
  series_lookup k (prod_map id f <$> row) = f <$> series_lookup k row.
Proof.
  induction row as [|[k' v'] row IH]; simpl; [done|]. by case_decide.
Qed.

Lemma series_lookup_snoc_ne {A} (k k' : string) (v : A) (row : series A) :
  k' ≠ k → series_lookup k (row ++ [(k', v)]) = series_lookup k row.
Proof.
  intros Hne. induction row as [|[k0 v0] row IH]; simpl.
  - by rewrite decide_False.
  - by case_decide.
Qed.

Lemma streak_update_dict (streak : Streak.t) (c r : json) (z : Z)
    (sentence : string) (w : world) :
  streak_update streak
    (JDict [("category", c); ("score", JInt z); ("reason", r)]) sentence w
  = (Ok (Streak.update z sentence r streak).1,
     mkWorld (files w) (requests w) (stdout w)
       (sent w ++ (Streak.update z sentence r streak).2)).
Proof.
  unfold streak_update, lift, notify_all, mbind, mret, M_bind, M_ret.
  cbn -[Streak.update decide].
  repeat (case_decide; try discriminate; cbn -[Streak.update decide]).
  all: by destruct (Streak.update z sentence r streak).
Qed.

(** When the classification lists [category], [score], [reason] in that
    order and the row has no [ai_] column yet, the enriched row is the
    original one followed by the three fields in place. *)
Lemma process_row_in_key_order (E : env) (model : string) (streak : Streak.t)
    (enriched : list (series Evaluator.value)) (row : series cell)
    (sent : string) (c r : json) (z : Z) (w : world) :
  sentence_from_row row = Ok sent →
  (Evaluator.classify E sent model w).1
  = Ok (JDict [("category", c); ("score", JInt z); ("reason", r)]) →
  series_lookup "ai_category" row = None →
  series_lookup "ai_score" row = None →
  series_lookup "ai_reason" row = None →
  (Evaluator.process_row E model (streak, enriched) row w).1
  = Ok ((Streak.update z sent r streak).1,
        enriched ++ [ (prod_map id Evaluator.VCell <$> row)
                      ++ [("ai_category", Evaluator.VJson c);
                          ("ai_score", Evaluator.VJson (JInt z));
                          ("ai_reason", Evaluator.VJson r)] ]).
Proof.
  intros Hsent Hres Hc Hs Hr.
  unfold Evaluator.process_row, lift, mbind, M_bind. rewrite Hsent.
  destruct (Evaluator.classify E sent model w) as [[res|e] w'];
    simpl in Hres; [injection Hres as ->|discriminate].
  cbn -[streak_update series_set]. rewrite streak_update_dict.
  cbn -[Streak.update series_set]. do 3 f_equal.
  rewrite (series_set_fresh "ai_category")
    by (by rewrite series_lookup_fmap, Hc).
  rewrite (series_set_fresh "ai_score")
    by (by rewrite series_lookup_snoc_ne, series_lookup_fmap, Hs).
  rewrite (series_set_fresh "ai_reason")
    by (by rewrite !series_lookup_snoc_ne, series_lookup_fmap, Hr).
  by rewrite <- !app_assoc.
Qed.

(** C4. The three [ai_] fields are filled from [res.values()], in the order
    of the keys of the classification.  When the service answers with
    [score] first, [ai_category] receives the score and [ai_score] the
    category, although [res["score"]], read by key two lines below, is 5. *)
Theorem batch_columns_follow_key_order :
  let E := scripted [Some (Json.dumps praise_score_first)] in
  let df : list (series cell) :=
    [ [("timestamp", CStr "2025-05-01 09:00:00"); ("event", CStr "app_switch");
       ("details", CStr "Writer")] ] in
  (Evaluator.process E df "scored.csv" Evaluator.DEFAULT_MODEL None fresh).1
  = Ok [ [("timestamp", Evaluator.VCell (CStr "2025-05-01 09:00:00"));
          ("event", Evaluator.VCell (CStr "app_switch"));
          ("details", Evaluator.VCell (CStr "Writer"));
          ("ai_category", Evaluator.VJson (JInt 5));
          ("ai_score", Evaluator.VJson (JStr "deep_work"));
          ("ai_reason", Evaluator.VJson (JStr "creative work"))] ]
  ∧ json_getitem praise_score_first "category" = Ok (JStr "deep_work")
  ∧ json_getitem praise_score_first "score" = Ok (JInt 5).
Proof. repeat split; vm_compute; reflexivity. Qed.

(** * Further properties *)

(** ** Streak tracker: counters, trend and notifications *)

Module StreakMore.
Import Streak.

Lemma trailing_snoc {A} (p : A → bool) (l : list A) (x : A) :
  trailing p (l ++ [x]) = if p x then S (trailing p l) else O.
Proof. unfold trailing. by rewrite reverse_snoc. Qed.

(** The four guarded blocks only touch the trend. *)
Lemma update_counters_eq score sentence reason self :
  pos (update score sentence reason self).1 = pos (bucket score self)
  ∧ neg (update score sentence reason self).1 = neg (bucket score self).
Proof. destruct self as [p n [| |]]; StreakFacts.crush. Qed.

Lemma update_coherent score sentence reason self :
  coherent self → coherent (update score sentence reason self).1.
Proof.
  unfold coherent. destruct self as [p n [| |]]; simpl; intros [Hg Hb];
    try specialize (Hg eq_refl); try specialize (Hb eq_refl); subst;
    StreakFacts.crush.
Qed.

Lemma run_coherent events : coherent (run events).
Proof.
  induction events as [|[[score sentence] reason] events IH] using rev_ind.
  - by split.
  - rewrite StreakFacts.run_snoc. by apply update_coherent.
Qed.

End StreakMore.

(** X1. After any session the two counters are the lengths of the current
    runs: [pos] is the number of scores at the end of the sequence that are
    at least 4, [neg] the number at the end that are at most -4. *)
Theorem counters_are_run_lengths (events : list (Z * string * json)) :
  Streak.pos (Streak.run events) = Z.of_nat (trailing is_good events)
  ∧ Streak.neg (Streak.run events) = Z.of_nat (trailing is_bad events).
Proof.
  induction events as [|[[score sentence] reason] events [IHp IHn]] using rev_ind.
  - done.
  - rewrite StreakFacts.run_snoc, !StreakMore.trailing_snoc.
    destruct (StreakMore.update_counters_eq score sentence reason
                (Streak.run events)) as [-> ->].
    unfold Streak.bucket, is_good, is_bad, POS_THRESH, NEG_THRESH in *. simpl.
    repeat case_decide; repeat case_bool_decide; simpl; lia.
Qed.

(** X2. After any session, a good trend comes with a zero [neg] counter and
    a bad trend with a zero [pos] counter; and one more update never turns
    a good trend into a bad one or a bad one into a good one. *)
Theorem trend_changes_through_neutral (events : list (Z * string * json))
    (score : Z) (sentence : string) (reason : json) :
  let self := Streak.run events in
  let self' := (Streak.update score sentence reason self).1 in
  (Streak.state self = good → Streak.neg self = 0)
  ∧ (Streak.state self = bad → Streak.pos self = 0)
  ∧ (Streak.state self = good → Streak.state self' ≠ bad)
  ∧ (Streak.state self = bad → Streak.state self' ≠ good).
Proof.
  cbv zeta. destruct (StreakMore.run_coherent events) as [Hg Hb].
  split; [done|]. split; [done|].
  destruct (Streak.run events) as [p n [| |]]; simpl in *;
    try specialize (Hg eq_refl); try specialize (Hb eq_refl); subst;
    split; intros ?; try done; StreakFacts.crush.
Qed.

Lemma trend_changes_through_neutral_witness :
  let self := Streak.run [(5, "a", JNull); (4, "b", JNull); (6, "c", JNull)] in
  Streak.state self = good
  ∧ Streak.neg self = 0
  ∧ Streak.state (Streak.update (-5) "d" JNull self).1 ≠ bad.
Proof.
  intros self.
  destruct (trend_changes_through_neutral
              [(5, "a", JNull); (4, "b", JNull); (6, "c", JNull)]
              (-5) "d" JNull) as (Hneg & _ & Hflip & _).
  assert (Streak.state self = good) as Hgood by reflexivity.
  split; [done|]. split; [by apply Hneg | by apply Hflip].
Defined.

(** X3. In every state, a score strictly between the two thresholds sets
    both counters to 0, sends nothing and keeps the trend: an indifferent
    event ends a run without ending a trend. *)
Theorem indifferent_score_resets_counters (self : Streak.t) (score : Z)
    (sentence : string) (reason : json) :
  NEG_THRESH < score < POS_THRESH →
  Streak.update score sentence reason self
  = ({| Streak.pos := 0; Streak.neg := 0; Streak.state := Streak.state self |}, []).
Proof. intros [Hlo Hhi]. destruct self as [p n [| |]]; StreakFacts.crush. Qed.

Lemma indifferent_score_resets_counters_witness :
  Streak.update 3 "Used Mail" JNull (Streak.mk 2 0 good)
  = (Streak.mk 0 0 good, []).
Proof.
  apply (indifferent_score_resets_counters (Streak.mk 2 0 good) 3).
  unfold NEG_THRESH, POS_THRESH. lia.
Defined.

(** X4. Notifications are not repeated while a trend lasts: in a good
    trend a score of at least 4 sends nothing and the trend stays good, and
    in a bad trend a score of at most -4 sends nothing and the trend stays
    bad, whatever the counters are. *)
Theorem no_notification_within_a_trend (self : Streak.t) (score : Z)
    (sentence : string) (reason : json) :
  (Streak.state self = good → score >= POS_THRESH →
     (Streak.update score sentence reason self).2 = []
     ∧ Streak.state (Streak.update score sentence reason self).1 = good)
  ∧ (Streak.state self = bad → score <= NEG_THRESH →
     (Streak.update score sentence reason self).2 = []
     ∧ Streak.state (Streak.update score sentence reason self).1 = bad).
Proof.
  destruct self as [p n [| |]]; simpl; split; intros ? ?; try done;
    StreakFacts.crush.
Qed.

Lemma no_notification_within_a_trend_witness :
  (Streak.update 5 "Used Writer" JNull (Streak.mk 3 0 good)).2 = []
  ∧ Streak.state (Streak.update 5 "Used Writer" JNull (Streak.mk 3 0 good)).1
    = good.
Proof.
  apply (no_notification_within_a_trend (Streak.mk 3 0 good) 5); [done|].
  unfold POS_THRESH. lia.
Defined.

(** X5. After any session that ends in a good trend, three scores in a row
    of at most -4 do this: the first sends the streak-broken notification
    and makes the trend neutral, the second sends nothing, the third sends
    the negative-streak notification carrying its own sentence and reason
    and makes the trend bad. *)
Theorem good_trend_reversal (events : list (Z * string * json))
    (s1 s2 s3 : Z) (sent1 sent2 sent3 : string) (r1 r2 r3 : json) :
  Streak.state (Streak.run events) = good →
  s1 <= -4 → s2 <= -4 → s3 <= -4 →
  let u1 := Streak.update s1 sent1 r1 (Streak.run events) in
  let u2 := Streak.update s2 sent2 r2 u1.1 in
  let u3 := Streak.update s3 sent3 r3 u2.1 in
  u1.2 = [StreakBroken] ∧ Streak.state u1.1 = neutral
  ∧ u2.2 = [] ∧ Streak.state u2.1 = neutral
  ∧ u3.2 = [SustainedBad sent3 r3] ∧ Streak.state u3.1 = bad.
Proof.
  intros Hgood H1 H2 H3. cbv zeta.
  destruct (StreakMore.run_coherent events) as [Hneg _].
  specialize (Hneg Hgood).
  destruct (Streak.run events) as [p n st]. simpl in *. subst.
  assert (Streak.update s1 sent1 r1 (Streak.mk p 0 good)
          = (Streak.mk 0 1 neutral, [StreakBroken])) as ->
    by StreakFacts.crush.
  cbn [fst snd].
  assert (Streak.update s2 sent2 r2 (Streak.mk 0 1 neutral)
          = (Streak.mk 0 2 neutral, [])) as ->
    by StreakFacts.crush.
  cbn [fst snd].
  assert (Streak.update s3 sent3 r3 (Streak.mk 0 2 neutral)
          = (Streak.mk 0 3 bad, [SustainedBad sent3 r3])) as ->
    by StreakFacts.crush.
  done.
Qed.

Lemma good_trend_reversal_witness :
  let self := Streak.run [(5, "a", JNull); (4, "b", JNull); (6, "c", JNull)] in
  let u1 := Streak.update (-4) "d" JNull self in
  let u2 := Streak.update (-5) "e" JNull u1.1 in
  let u3 := Streak.update (-4) "f" (JStr "herd") u2.1 in
  u1.2 = [StreakBroken] ∧ Streak.state u1.1 = neutral
  ∧ u2.2 = [] ∧ Streak.state u2.1 = neutral
  ∧ u3.2 = [SustainedBad "f" (JStr "herd")] ∧ Streak.state u3.1 = bad.
Proof.
  apply (good_trend_reversal
           [(5, "a", JNull); (4, "b", JNull); (6, "c", JNull)] (-4) (-5) (-4));
    [reflexivity | lia | lia | lia].
Defined.

(** X6. When each notification is sent, in terms of the state before the
    update: the positive one exactly on the third good score in a row while
    the trend is not good; the negative one, carrying the sentence and
    reason of this update, exactly on the third bad score in a row while the
    trend is not bad; streak-broken exactly on the first bad score of a good
    trend; turning-the-tide exactly on the first good score of a bad
    trend. *)
Theorem notification_conditions (self : Streak.t) (score : Z)
    (sentence : string) (reason : json) :
  let out := (Streak.update score sentence reason self).2 in
  (SustainedGood ∈ out ↔
     score >= 4 ∧ Streak.pos self = 2 ∧ Streak.state self ≠ good)
  ∧ (∀ s r, SustainedBad s r ∈ out ↔
       s = sentence ∧ r = reason
       ∧ score <= -4 ∧ Streak.neg self = 2 ∧ Streak.state self ≠ bad)
  ∧ (StreakBroken ∈ out ↔
       score <= -4 ∧ Streak.neg self = 0 ∧ Streak.state self = good)
  ∧ (TurningTide ∈ out ↔
       score >= 4 ∧ Streak.pos self = 0 ∧ Streak.state self = bad).
Proof.
  cbv zeta. destruct self as [p n st].
  repeat split; try intros s r; try split;
    destruct st; StreakFacts.crush;
    rewrite ?elem_of_cons, ?elem_of_nil in *;
    try (intuition (try discriminate; try congruence; try lia)).
Qed.

(** ** Sentence mapper: failures, rows of both kinds *)

#[local] Arguments startswith _ _ : simpl never.
#[local] Arguments strip _ : simpl never.
#[local] Arguments split _ _ : simpl never.

(** X7. On a row read by pandas, the mapper raises in exactly three cases:
    [KeyError] when there is no [event] column, [AttributeError] when the
    event is not a string, and [AttributeError] when the event begins
    [app_switch] or [app_usage] (and not [browser_tab]) while [details] is
    present and not a string.  In every other case it returns a sentence. *)
Theorem mapper_failures (row : series cell) :
  match series_lookup "event" row with
  | None => sentence_from_row row = Raise (KeyError "event")
  | Some (CStr ev) =>
      if negb (startswith "browser_tab" ev)
         && (startswith "app_switch" ev || startswith "app_usage" ev)
      then match series_lookup "details" row with
           | None | Some (CStr _) => ∃ s, sentence_from_row row = Ok s
           | Some _ => sentence_from_row row = Raise (AttributeError "strip")
           end
      else ∃ s, sentence_from_row row = Ok s
  | Some _ => sentence_from_row row = Raise (AttributeError "startswith")
  end.
Proof.
  unfold sentence_from_row. simpl.
  destruct (series_lookup "event" row) as [[ev| | |]|]; simpl; try done.
  destruct (startswith "browser_tab" ev); simpl; [by eexists|].
  destruct (startswith "app_switch" ev); simpl.
  - destruct (series_lookup "details" row) as [[d| | |]|]; simpl;
      try done; by eexists.
  - destruct (startswith "app_usage" ev); simpl; [|by eexists].
    destruct (series_lookup "details" row) as [[d| | |]|]; simpl;
      try done; by eexists.
Qed.

(** X8. On a row of the live monitor, a dictionary of strings, the mapper
    raises only when the key [event] is missing, and then [KeyError]; with
    the key present it always returns a sentence. *)
Theorem mapper_on_dict_rows (row : gmap string string) :
  (row !! "event" = None → sentence_from_row row = Raise (KeyError "event"))
  ∧ (∀ ev, row !! "event" = Some ev → ∃ s, sentence_from_row row = Ok s).
Proof.
  unfold sentence_from_row. simpl. split.
  - by intros ->.
  - intros ev ->. simpl.
    destruct (startswith "browser_tab" ev); [by eexists|].
    destruct (row !! "details") as [d|]; simpl;
      destruct (startswith "app_switch" ev); simpl; try by eexists.
    all: destruct (startswith "app_usage" ev); simpl; by eexists.
Qed.

Lemma mapper_on_dict_rows_witness :
  sentence_from_row (R := gmap string string) {[ "timestamp" := "t" ]}
  = Raise (KeyError "event")
  ∧ ∃ s, sentence_from_row (R := gmap string string)
           {[ "event" := "app_switch" ]} = Ok s.
Proof.
  split.
  - apply (mapper_on_dict_rows {[ "timestamp" := "t" ]}). reflexivity.
  - apply (proj2 (mapper_on_dict_rows {[ "event" := "app_switch" ]})
             "app_switch").
    reflexivity.
Defined.

(** The mapper on a record of three strings, lookups resolved. *)
Lemma sentence_raw_event (ts ev d : string) :
  sentence_from_row (raw_event ts ev d)
  = if startswith "browser_tab" ev then
      Ok ("Visited " +:+ quote +:+ str (first_clause (CStr d))
            +:+ quote +:+ " in browser")
    else if startswith "app_switch" ev then
      s ← str_strip (first_clause (CStr d)); Ok ("Switched to " +:+ s)
    else if startswith "app_usage" ev then
      s ← str_strip (first_clause (CStr d)); Ok ("Used " +:+ s)
    else Ok ev.
Proof. reflexivity. Qed.

Lemma first_clause_app (field0 rest : string) :
  has_char "|" field0 = false →
  first_clause (CStr (field0 +:+ "|" +:+ rest)) = CStr field0.
Proof.
  intros Hno. unfold first_clause. f_equal.
  apply first_field. split; [done|]. right. by exists rest.
Qed.

(** X9. The sentence keeps nothing of a row but its event kind and the part
    of [details] before the first [|]: two records with the same event kind
    whose details begin with the same field give the same sentence, whatever
    their timestamps and the rest of their details (URL, duration). *)
Theorem sentence_drops_timestamp_and_rest
    (ts1 ts2 event field0 rest1 rest2 : string) :
  has_char "|" field0 = false →
  sentence_from_row (raw_event ts1 event (field0 +:+ "|" +:+ rest1))
  = sentence_from_row (raw_event ts2 event (field0 +:+ "|" +:+ rest2))
  ∧ sentence_from_row (raw_event ts1 event (field0 +:+ "|" +:+ rest1))
    = sentence_from_row (raw_event ts2 event field0).
Proof.
  intros Hno. rewrite !sentence_raw_event.
  rewrite !first_clause_app by done.
  assert (first_clause (CStr field0) = CStr field0) as ->.
  { unfold first_clause. f_equal. apply first_field. split; [done | by left]. }
  done.
Qed.

Lemma sentence_drops_timestamp_and_rest_witness :
  sentence_from_row (raw_event "09:00" "app_usage" ("Writer" +:+ "|" +:+ "900"))
  = sentence_from_row (raw_event "17:30" "app_usage" ("Writer" +:+ "|" +:+ "12.5"))
  ∧ sentence_from_row (raw_event "09:00" "app_usage" ("Writer" +:+ "|" +:+ "900"))
    = sentence_from_row (raw_event "17:30" "app_usage" "Writer").
Proof.
  apply (sentence_drops_timestamp_and_rest "09:00" "17:30" "app_usage" "Writer").
  reflexivity.
Defined.

(** Lookups in the row the live loop builds from a line. *)
Lemma dict_header_3 (ts ev d : string) (extra : list string) :
  Both.dict (zip HEADER (ts :: ev :: d :: extra))
  = <["details" := d]> (<["event" := ev]> (<["timestamp" := ts]> ∅)).
Proof. reflexivity. Qed.

Lemma sentence_live_row (ts ev d : string) (extra : list string) :
  sentence_from_row (Both.dict (zip HEADER (ts :: ev :: d :: extra)))
  = sentence_from_row (raw_event ts ev d).
Proof. reflexivity. Qed.

(** X10. The live loop and the batch loop read a record the same way: for a
    line of at least three fields under the usual header, the mapper gives on
    the dictionary built by the live loop what it gives on the pandas row
    with the same three strings, fields beyond the third being ignored; a
    line of two fields is read with empty details; and a line of one field
    has no [event] key. *)
Theorem live_and_batch_rows_agree (ts ev d : string) (extra : list string) :
  sentence_from_row (Both.dict (zip HEADER (ts :: ev :: d :: extra)))
  = sentence_from_row (raw_event ts ev d)
  ∧ sentence_from_row (Both.dict (zip HEADER [ts; ev]))
    = sentence_from_row (raw_event ts ev "")
  ∧ sentence_from_row (Both.dict (zip HEADER [ts])) = Raise (KeyError "event").
Proof.
  unfold sentence_from_row, raw_event. repeat split.
Qed.

(** ** Classifier: footprint, permanence of the cache, keys *)

Section ClassifierMore.

Variable E : env.
Variable PROMPT_TMPL : string → string → string → string.
Variable PHILOSOPHY : string.

Local Abbreviation classify_ := (classify E PROMPT_TMPL PHILOSOPHY).
Local Abbreviation call_llm_ := (call_llm E PROMPT_TMPL PHILOSOPHY).
Local Abbreviation classify_each_ := (classify_each E PROMPT_TMPL PHILOSOPHY).

(** X11. What one [classify] call touches.  It never sends a notification
    and leaves every cache file but the sentence's own as it is.  If the
    sentence's file exists the world is unchanged.  If not, exactly one
    request is sent, the file exists afterwards, and one line is printed if
    and only if the service call raised. *)
Theorem classify_footprint (activity model : string) (w : world) :
  let w' := (classify_ activity model w).2 in
  sent w' = sent w
  ∧ (∀ path, path ≠ cache_file E activity → files w' !! path = files w !! path)
  ∧ (is_Some (files w !! cache_file E activity) → w' = w)
  ∧ (files w !! cache_file E activity = None →
     requests w' = S (requests w)
     ∧ is_Some (files w' !! cache_file E activity)
     ∧ stdout w' = stdout w ++ match (call_llm_ activity model w).1 with
                               | Ok _ => []
                               | Raise e => [LLMError e]
                               end).
Proof.
  cbv zeta. destruct (files w !! cache_file E activity) as [t|] eqn:Hf.
  - rewrite (classify_hit _ _ _ _ _ _ _ Hf). simpl. done.
  - rewrite (classify_miss _ _ _ _ _ _ Hf).
    destruct (call_llm_ activity model w).1 as [v|e]; simpl;
      (split; [done|]);
      (split; [by intros path Hne; rewrite lookup_insert_ne|]);
      (split; [by intros [? [=]]|]); intros _;
      rewrite lookup_insert_eq, ?app_nil_r; eauto.
Qed.

(** X12. The cache is permanent: once a file is there, no sequence of
    [classify] calls, for any sentences and models and whatever the service
    answers, changes its text or removes it. *)
Theorem cache_files_are_permanent (calls : list (string * string))
    (path text : string) (w : world) :
  files w !! path = Some text →
  files (classify_each_ calls w) !! path = Some text.
Proof. apply classify_each_keeps_files. Qed.

End ClassifierMore.

Lemma classify_footprint_witness :
  requests (classify (scripted [None]) Both.PROMPT_TMPL Both.PHILOSOPHY
              "Used Writer" Both.DEFAULT_MODEL fresh).2 = 1%nat.
Proof.
  destruct (classify_footprint (scripted [None]) Both.PROMPT_TMPL
              Both.PHILOSOPHY "Used Writer" Both.DEFAULT_MODEL fresh)
    as (_ & _ & _ & Hmiss).
  destruct Hmiss as (Hreq & _ & _); [vm_compute; reflexivity|].
  exact Hreq.
Defined.

Lemma cache_files_are_permanent_witness :
  let E := scripted [Some (Json.dumps praise); None] in
  let w := mkWorld {[ ".cache/old.json" := "kept" ]} 0 [] [] in
  files (classify_each E Both.PROMPT_TMPL Both.PHILOSOPHY
           [("Used Writer", "gpt-4o-mini"); ("Used Mail", "gpt-4o")] w)
    !! ".cache/old.json" = Some "kept".
Proof.
  intros E w. apply (cache_files_are_permanent E). reflexivity.
Defined.

Lemma length_app (s t : string) :
  String.length (s +:+ t) = (String.length s + String.length t)%nat.
Proof. induction s as [|a s IH]; [done|]. rewrite app_cons. simpl. by rewrite IH. Qed.

Lemma app_inj_r (s1 s2 t : string) : s1 +:+ t = s2 +:+ t → s1 = s2.
Proof.
  revert s2. induction s1 as [|a s1 IH]; intros [|b s2] Heq; try done.
  - apply (f_equal String.length) in Heq. rewrite !length_app in Heq.
    simpl in Heq. lia.
  - apply (f_equal String.length) in Heq. rewrite !length_app in Heq.
    simpl in Heq. lia.
  - rewrite !app_cons in Heq. injection Heq as -> Heq. f_equal. by apply IH.
Qed.

(** X13. Two sentences share a cache file exactly when their SHA-1 digests
    are equal; then whichever is classified second receives the cached
    classification of the first, without a request. *)
Theorem cache_key_is_the_digest (E : env)
    (PROMPT_TMPL : string → string → string → string) (PHILOSOPHY : string)
    (a b model : string) (w : world) (text : string) :
  (cache_file E a = cache_file E b ↔ sha1_hexdigest E a = sha1_hexdigest E b)
  ∧ (sha1_hexdigest E a = sha1_hexdigest E b →
     files w !! cache_file E a = Some text →
     classify E PROMPT_TMPL PHILOSOPHY b model w
     = (from_option Ok (Raise JSONDecodeError) (json_loads E text), w)).
Proof.
  split.
  - unfold cache_file. split; [|by intros ->].
    intros Heq. apply (inj (String.app ".cache/")) in Heq.
    by apply app_inj_r in Heq.
  - intros Hdig Hf. apply classify_hit. unfold cache_file in *.
    by rewrite <- Hdig.
Qed.

Lemma cache_key_is_the_digest_witness :
  let E := scripted [] in
  let w := mkWorld {[ cache_file E "Used Writer" := Json.dumps blame ]} 0 [] [] in
  classify E Both.PROMPT_TMPL Both.PHILOSOPHY "Used Writer" "gpt-4o" w
  = (Ok blame, w).
Proof.
  intros E w.
  destruct (cache_key_is_the_digest E Both.PROMPT_TMPL Both.PHILOSOPHY
              "Used Writer" "Used Writer" "gpt-4o" w (Json.dumps blame))
    as [_ Hshare].
  rewrite Hshare; [reflexivity | reflexivity | ].
  unfold w. apply lookup_singleton_eq.
Defined.

(** ** Batch driver: shape of the output, requests, warm cache *)

Section BatchMore.

Variable E : env.

Lemma streak_update_frame (streak : Streak.t) (res : json) (sentence : string)
    (w : world) :
  let w' := (streak_update streak res sentence w).2 in
  files w' = files w ∧ requests w' = requests w ∧ stdout w' = stdout w.
Proof.
  unfold streak_update, lift, notify_all, mbind, mret, M_bind, M_ret.
  destruct (json_getitem res "score") as [sc|]; simpl; [|done].
  destruct (json_getitem res "reason") as [re|]; simpl; [|done].
  destruct (as_int sc) as [z|]; simpl; [|done].
  by destruct (Streak.update z sentence re streak).
Qed.







Lemma length_processed {A} (limit : option Z) (df : list A) :
  length (processed limit df)
  = match limit with
    | None => length df
    | Some n =>
        if decide (n = 0) then length df
        else if decide (0 < n) then Nat.min (Z.to_nat n) (length df)
        else (length df - Z.to_nat (- n))%nat
    end.
Proof.
  unfold processed, Evaluator.head. destruct limit as [n|]; [|done].
  repeat case_decide; try lia; rewrite length_take; lia.
Qed.


End BatchMore.


Section BatchRuns.

Variable E : env.

Lemma classify_requests (P : string → string → string → string) (PH : string)
    (activity model : string) (w : world) :
  let w' := (classify E P PH activity model w).2 in
  (requests w ≤ requests w' ≤ S (requests w))%nat ∧ files w ⊆ files w'.
Proof.
  cbv zeta. destruct (files w !! cache_file E activity) as [t|] eqn:Hf.
  - rewrite (classify_hit _ _ _ _ _ _ _ Hf). simpl. split; [lia|done].
  - rewrite (classify_miss _ _ _ _ _ _ Hf).
    destruct (call_llm E P PH activity model w).1; simpl;
      (split; [lia | by apply insert_subseteq]).
Qed.

Lemma process_row_requests (model : string)
    (acc : Streak.t * list (series Evaluator.value)) (row : series cell)
    (w : world) :
  let w' := (Evaluator.process_row E model acc row w).2 in
  (requests w ≤ requests w' ≤ S (requests w))%nat ∧ files w ⊆ files w'.
Proof.
  cbv zeta. destruct acc as [streak enriched].
  unfold Evaluator.process_row, lift, mbind, mret, M_bind, M_ret.
  destruct (sentence_from_row row) as [sentence|]; simpl; [|split; [lia|done]].
  pose proof (classify_requests Evaluator.PROMPT_TMPL Evaluator.PHILOSOPHY
                sentence model w) as Hc. cbv zeta in Hc.
  fold (Evaluator.classify E) in Hc.
  destruct (Evaluator.classify E sentence model w) as [[res|] w1]; simpl in *;
    [|done].
  destruct (json_values res) as [vals|]; simpl; [|done].
  destruct (Evaluator.unpack3 vals) as [[[c s] r]|]; simpl; [|done].
  pose proof (streak_update_frame streak res sentence w1) as (Hf & Hr & _).
  destruct (streak_update streak res sentence w1) as [[streak'|] w2];
    simpl in *; by rewrite Hf, Hr.
Qed.

Lemma for_rows_requests (model : string) (rows : list (series cell))
    (acc : Streak.t * list (series Evaluator.value)) (w : world) :
  let w' := (Evaluator.for_rows E model rows acc w).2 in
  (requests w ≤ requests w' ≤ requests w + length rows)%nat ∧ files w ⊆ files w'.
Proof.
  cbv zeta. revert acc w. induction rows as [|row rows IH]; intros acc w; simpl.
  - split; [lia|done].
  - unfold mbind, M_bind.
    pose proof (process_row_requests model acc row w) as [Hr Hf].
    cbv zeta in Hr, Hf.
    destruct (Evaluator.process_row E model acc row w) as [[acc1|] w1];
      simpl in *; [|split; [lia|done]].
    destruct (IH acc1 w1) as [Hr' Hf']. split; [lia | by etrans].
Qed.

(** X15. Whether [process] returns or raises, it sends at most one request
    for each row of the frame, and the cache afterwards holds every file it
    held before, with the same text. *)
Theorem batch_requests_bounded (df : list (series cell)) (out model : string)
    (limit : option Z) (w : world) :
  let w' := (Evaluator.process E df out model limit w).2 in
  (requests w ≤ requests w' ≤ requests w + length df)%nat
  ∧ files w ⊆ files w'.
Proof.
  cbv zeta. unfold Evaluator.process. fold (processed limit df).
  unfold mbind, mret, M_bind, M_ret, print.
  pose proof (for_rows_requests model (processed limit df) (Streak.init, []) w)
    as [Hr Hf]. cbv zeta in Hr, Hf.
  assert (length (processed limit df) ≤ length df)%nat as Hlen.
  { rewrite length_processed. destruct limit as [n|]; [|done].
    repeat case_decide; lia. }
  destruct (Evaluator.for_rows E model (processed limit df) (Streak.init, []) w)
    as [[[streak en]|] w1]; simpl in *; (split; [lia|done]).
Qed.

End BatchRuns.

Section WarmCache.

Variable E : env.
Hypothesis RT : answers_round_trip E.

(** A classification that [classify] returned is in the cache, readable. *)
Lemma classify_result_cached (P : string → string → string → string)
    (PH : string) (activity model : string) (w w1 : world) (v : json) :
  classify E P PH activity model w = (Ok v, w1) →
  ∃ text, files w1 !! cache_file E activity = Some text
          ∧ json_loads E text = Some v.
Proof.
  destruct RT as [RTanswers RTfallback].
  destruct (files w !! cache_file E activity) as [t|] eqn:Hf.
  - rewrite (classify_hit _ _ _ _ _ _ _ Hf).
    destruct (json_loads E t) as [v'|] eqn:Hl; simpl; [|done].
    intros [= <- <-]. eauto.
  - rewrite (classify_miss _ _ _ _ _ _ Hf).
    destruct (call_llm E P PH activity model w).1 as [v0|e] eqn:Hcall.
    + intros [= <- <-]. simpl. rewrite lookup_insert_eq. eexists. split; [done|].
      unfold call_llm, create, loads, lift, mbind, M_bind in Hcall.
      simpl in Hcall.
      destruct (chat_completions_create E _ _ _) as [body|] eqn:Hbody;
        simpl in Hcall; [|done].
      destruct (json_loads E body) as [v1|] eqn:Hv1; simpl in Hcall; [|done].
      injection Hcall as <-. by eapply RTanswers.
    + intros [= <- <-]. simpl. rewrite lookup_insert_eq. eauto.
Qed.

Lemma classify_sent (P : string → string → string → string) (PH : string)
    (activity model : string) (w : world) :
  sent (classify E P PH activity model w).2 = sent w.
Proof.
  destruct (files w !! cache_file E activity) as [t|] eqn:Hf.
  - by rewrite (classify_hit _ _ _ _ _ _ _ Hf).
  - rewrite (classify_miss _ _ _ _ _ _ Hf).
    by destruct (call_llm E P PH activity model w).1.
Qed.

(** The tracker step of the drivers acts on the world only by appending
    notifications, the same ones in every world. *)
Lemma streak_update_uniform (streak : Streak.t) (res : json) (sentence : string) :
  ∃ r ns, ∀ w,
    streak_update streak res sentence w
    = (r, mkWorld (files w) (requests w) (stdout w) (sent w ++ ns)).
Proof.
  unfold streak_update, lift, notify_all, mbind, mret, M_bind, M_ret.
  destruct (json_getitem res "score") as [sc|e]; simpl;
    [|exists (Raise e), []; intros []; simpl; by rewrite app_nil_r].
  destruct (json_getitem res "reason") as [re|e]; simpl;
    [|exists (Raise e), []; intros []; simpl; by rewrite app_nil_r].
  destruct (as_int sc) as [z|e]; simpl;
    [|exists (Raise e), []; intros []; simpl; by rewrite app_nil_r].
  destruct (Streak.update z sentence re streak) as [streak' ns].
  by exists (Ok streak'), ns.
Qed.

Lemma process_row_warm (model model' : string)
    (acc acc' : Streak.t * list (series Evaluator.value)) (row : series cell)
    (w w1 w2 : world) :
  Evaluator.process_row E model acc row w = (Ok acc', w1) →
  files w1 ⊆ files w2 →
  ∃ ns, sent w1 = sent w ++ ns
        ∧ Evaluator.process_row E model' acc row w2
          = (Ok acc', mkWorld (files w2) (requests w2) (stdout w2) (sent w2 ++ ns)).
Proof.
  destruct acc as [streak enriched].
  unfold Evaluator.process_row, lift, mbind, mret, M_bind, M_ret.
  destruct (sentence_from_row row) as [sentence|]; [|done].
  pose proof (classify_sent Evaluator.PROMPT_TMPL Evaluator.PHILOSOPHY
                sentence model w) as Hsent.
  fold (Evaluator.classify E) in Hsent.
  destruct (Evaluator.classify E sentence model w) as [[res|] wa] eqn:Hcl;
    [|done].
  apply classify_result_cached in Hcl as (text & Hfile & Hload).
  destruct (json_values res) as [vals|] eqn:Hvals; [|done].
  destruct (Evaluator.unpack3 vals) as [[[c s] r]|] eqn:Hunpack; [|done].
  destruct (streak_update_uniform streak res sentence) as (r' & ns & Hupd).
  cbv beta. rewrite Hupd. destruct r' as [streak'|]; cbv beta iota; [|intros [=]].
  intros [= <- <-] Hsub. simpl in *.
  exists ns. split; [by rewrite Hsent|].
  unfold Evaluator.classify.
  rewrite (classify_hit _ _ _ _ _ w2 text), Hload; simpl.
  - rewrite Hvals, Hunpack. cbv beta iota. rewrite Hupd. by cbv beta iota.
  - by eapply lookup_weaken.
Qed.

Lemma for_rows_warm (model model' : string) (rows : list (series cell))
    (acc acc' : Streak.t * list (series Evaluator.value)) (w w1 w2 : world) :
  Evaluator.for_rows E model rows acc w = (Ok acc', w1) →
  files w1 ⊆ files w2 →
  ∃ ns, sent w1 = sent w ++ ns
        ∧ Evaluator.for_rows E model' rows acc w2
          = (Ok acc', mkWorld (files w2) (requests w2) (stdout w2) (sent w2 ++ ns)).
Proof.
  revert acc w w2. induction rows as [|row rows IH]; intros acc w w2; simpl.
  - intros [= <- <-] _. exists []. rewrite !app_nil_r. by destruct w2.
  - unfold mbind, M_bind.
    destruct (Evaluator.process_row E model acc row w) as [[acc1|] wa] eqn:Hrow;
      [|done].
    intros Hrest Hsub.
    pose proof (for_rows_requests E model rows acc1 wa) as [_ Hmono].
    cbv zeta in Hmono. rewrite Hrest in Hmono. simpl in Hmono.
    destruct (process_row_warm model model' _ _ _ _ _ w2 Hrow) as (ns1 & Hs1 & ->);
      [by etrans|].
    destruct (IH _ _ (mkWorld (files w2) (requests w2) (stdout w2) (sent w2 ++ ns1))
                Hrest Hsub) as (ns2 & Hs2 & ->).
    exists (ns1 ++ ns2). simpl. rewrite Hs2, Hs1, !app_assoc. done.
Qed.

(** X16. A second batch run over the same frame on the cache the first run
    left behind (any model name, any output file) sends no request, leaves
    the cache as it is, writes the same frame and sends the same
    notifications again, provided the answers of the service survive the
    JSON round trip. *)
Theorem batch_rerun_on_warm_cache (df : list (series cell))
    (out out' model model' : string) (limit : option Z) (w w1 : world)
    (enriched : list (series Evaluator.value)) :
  Evaluator.process E df out model limit w = (Ok enriched, w1) →
  ∃ ns w2,
    Evaluator.process E df out' model' limit w1 = (Ok enriched, w2)
    ∧ requests w2 = requests w1
    ∧ files w2 = files w1
    ∧ sent w1 = sent w ++ ns
    ∧ sent w2 = sent w1 ++ ns.
Proof.
  unfold Evaluator.process. fold (processed limit df).
  unfold mbind, mret, M_bind, M_ret, print.
  destruct (Evaluator.for_rows E model (processed limit df) (Streak.init, []) w)
    as [[[streak en]|] wa] eqn:Hrows; [|done].
  intros [= <- <-].
  destruct (for_rows_warm model model' _ _ _ _ _
              (mkWorld (files wa) (requests wa) (stdout wa ++ [Saved out]) (sent wa))
              Hrows) as (ns & Hsent & ->); [done|].
  exists ns. eexists. split; [reflexivity|]. done.
Qed.

End WarmCache.

Lemma scripted_round_trip :
  answers_round_trip (scripted [Some (Json.dumps praise); None; Some (Json.dumps blame)]).
Proof.
  split; [|vm_compute; reflexivity].
  intros n model prompt body v Hbody Hv. simpl in Hbody.
  destruct n as [|[|[|n]]]; simpl in Hbody; try discriminate;
    injection Hbody as <-; vm_compute in Hv; injection Hv as <-;
    vm_compute; reflexivity.
Qed.

Lemma batch_rerun_on_warm_cache_witness :
  let E := scripted [Some (Json.dumps praise); None; Some (Json.dumps blame)] in
  let df := [raw_event "09:00" "app_switch" "Writer";
             raw_event "09:05" "app_switch" "Mail";
             raw_event "09:10" "browser_tab" "Feed|https://feed.example"] in
  ∃ enriched w1 w2,
    Evaluator.process E df "a.csv" "gpt-4o-mini" None fresh = (Ok enriched, w1)
    ∧ Evaluator.process E df "b.csv" "gpt-4o" None w1 = (Ok enriched, w2)
    ∧ requests w1 = 3%nat ∧ requests w2 = 3%nat.
Proof.
  intros E df.
  destruct (Evaluator.process E df "a.csv" "gpt-4o-mini" None fresh)
    as [[enriched|e] w1] eqn:Hrun.
  - destruct (batch_rerun_on_warm_cache E scripted_round_trip df "a.csv" "b.csv"
                "gpt-4o-mini" "gpt-4o" None fresh w1 enriched Hrun)
      as (ns & w2 & Hrun2 & Hreq & _).
    assert (requests w1 = 3%nat) as Hw1.
    { change (requests w1)
        with ((λ x : result (list (series Evaluator.value)) * world,
                 requests x.2) (Ok enriched, w1)).
      rewrite <- Hrun. vm_compute. reflexivity. }
    exists enriched, w1, w2.
    split; [reflexivity|]. split; [exact Hrun2|].
    split; [exact Hw1|]. rewrite Hreq. exact Hw1.
  - exfalso. apply (f_equal fst) in Hrun. vm_compute in Hrun. discriminate.
Defined.

(** ** Live loop: polls, lines, the reader over the file *)

Section LiveMore.

Variable E : env.

(** X17. Polls that find no line and lines that repeat the header leave no
    trace: the live loop ends in the same streak and the same world as on
    the polls that remain when those are taken out. *)
Theorem live_loop_passes_over (model : string) (fieldnames : list string)
    (ps : list Both.poll) (streak : Streak.t) (w : world) :
  Both.evaluate_polls E model fieldnames ps streak w
  = Both.evaluate_polls E model fieldnames
      (filter (λ p, ¬ passed_over fieldnames p) ps) streak w.
Proof.
  revert streak w. induction ps as [|p ps IH]; intros streak w; [done|].
  rewrite filter_cons. case_decide as Hp.
  - simpl. unfold mbind, M_bind.
    destruct (Both.evaluate_step E model fieldnames streak p w) as [[s|] w'];
      [apply IH | done].
  - simpl. unfold mbind, M_bind. rewrite <- IH.
    destruct p as [|fields]; simpl in *; [done|]. by rewrite decide_True.
Qed.

(** X18. Under the usual header, a line of fewer than two fields, other than
    the single field [timestamp], stops the live loop with [KeyError] for
    [event], and nothing else happens: no request, no file, no
    notification. *)
Theorem live_short_line_raises (model : string) (streak : Streak.t)
    (fields : list string) (w : world) :
  (length fields < 2)%nat → fields ≠ ["timestamp"] →
  Both.evaluate_step E model HEADER streak (Both.Line fields) w
  = (Raise (KeyError "event"), w).
Proof.
  intros Hlen Hne. destruct fields as [|a [|b fields]]; simpl in Hlen; [| |lia].
  - reflexivity.
  - unfold Both.evaluate_step.
    assert (Both.dict (zip HEADER [a]) = {[ "timestamp" := a ]}) as ->
      by reflexivity.
    rewrite lookup_singleton_eq, decide_False by congruence.
    unfold sentence_from_row, lift, mbind, M_bind. simpl.
    by rewrite lookup_singleton_ne.
Qed.

End LiveMore.

Lemma live_short_line_raises_witness :
  Both.evaluate_step (scripted []) "gpt-4o-mini" HEADER Streak.init
    (Both.Line []) fresh
  = (Raise (KeyError "event"), fresh).
Proof.
  apply (live_short_line_raises (scripted [])); [simpl; lia | done].
Defined.

(** ** The reader over the log file *)

#[local] Arguments Both.evaluate_step _ _ _ _ _ : simpl never.

Section ReaderMore.

Variable E : env.

Lemma turns_on_new_lines (model : string) (file new : list (list string))
    (names : list string) (n k : nat) (streak : Streak.t) (w : world) :
  (k + n ≤ length new)%nat →
  Monitor.ticks_from E model (replicate n Monitor.Turn) (file ++ new)
    (Monitor.mkReader (length file + k) (Some names), streak) w
  = (Both.evaluate_polls E model names (Both.Line <$> take n (drop k new)) streak
     ≫= λ s, mret (Monitor.mkReader (length file + k + n) (Some names), s)) w.
Proof.
  revert k streak w. induction n as [|n IH]; intros k streak w Hk.
  - simpl. unfold mbind, mret, M_bind, M_ret. by rewrite Nat.add_0_r.
  - destruct (new !! k) as [line|] eqn:Hline;
      [|apply lookup_ge_None in Hline; lia].
    rewrite (drop_S _ _ _ Hline). simpl.
    unfold Monitor.turn, Monitor.get_fieldnames. simpl.
    rewrite lookup_app_r, Nat.add_comm, Nat.add_sub, Hline by lia. simpl.
    unfold mbind, mret, M_bind, M_ret.
    destruct (Both.evaluate_step E model names streak (Both.Line line) w)
      as [[streak'|] w']; [|done].
    replace (S (k + length file)) with (length file + S k)%nat by lia.
    rewrite IH by lia. unfold mbind, mret, M_bind, M_ret.
    by replace (k + length file + S n)%nat with (length file + S k + n)%nat by lia.
Qed.

(** X19. Started at the end of a log that has at least its header,
    [evaluate_live] processes none of the records already there; once the
    producer has appended records and the loop has turned once for each, the
    streak and the world are those of the live loop run on exactly the new
    records, read under the first record of the file as field names. *)
Theorem tail_start_reads_only_new_records (model : string)
    (names : list string) (old new : list (list string)) (w : world) :
  Monitor.evaluate_live E model true (names :: old)
    (Monitor.Written new :: replicate (length new) Monitor.Turn) w
  = (Both.evaluate_live E model names (Both.Line <$> new)
     ≫= λ s, mret (Monitor.mkReader (length (names :: old) + length new)
                     (Some names), s)) w.
Proof.
  unfold Monitor.evaluate_live, Both.evaluate_live, Monitor.open_log,
    Monitor.skip_to_end.
  cbn [Monitor.ticks_from head].
  pose proof (turns_on_new_lines model (names :: old) new names
                (length new) 0 Streak.init w) as Hturns.
  rewrite Nat.add_0_r, drop_0, firstn_all in Hturns.
  apply Hturns. lia.
Qed.

(** The row built when the record [ts, ev, d] serves as field names for
    the header line. *)
Lemma dict_under_record (ts ev d : string) :
  Both.dict (zip [ts; ev; d] HEADER)
  = <[d := "details"]> (<[ev := "event"]> (<[ts := "timestamp"]> ∅)).
Proof. reflexivity. Qed.

Lemma turn_without_header (model : string) (ts ev d : string)
    (more : list (list string)) (streak : Streak.t) (w : world) :
  ts ≠ "timestamp" → "event" ∉ [ts; ev; d] →
  Monitor.turn E model (HEADER :: [ts; ev; d] :: more)
    (Monitor.mkReader 0 None, streak) w
  = (Raise (KeyError "event"), w).
Proof.
  intros Hts Hev. rewrite !not_elem_of_cons in Hev.
  destruct Hev as (Hev1 & Hev2 & Hev3 & _).
  unfold Monitor.turn, Monitor.get_fieldnames. simpl.
  unfold mbind, M_bind, Both.evaluate_step. rewrite dict_under_record.
  assert ((<[d := "details"]> (<[ev := "event"]> (<[ts := "timestamp"]> ∅))
            : gmap string string) !! "timestamp" ≠ Some "timestamp") as Hnot.
  { destruct (decide (d = "timestamp")) as [->|Hd];
      [by rewrite lookup_insert_eq|].
    rewrite lookup_insert_ne by done.
    destruct (decide (ev = "timestamp")) as [->|He];
      [by rewrite lookup_insert_eq|].
    by rewrite !lookup_insert_ne, lookup_empty by done. }
  rewrite decide_False by done.
  assert ((<[d := "details"]> (<[ev := "event"]> (<[ts := "timestamp"]> ∅))
            : gmap string string) !! "event" = None) as Hmiss
    by by rewrite !lookup_insert_ne, lookup_empty by done.
  unfold sentence_from_row, lift. cbn [getitem dict_row]. rewrite Hmiss.
  reflexivity.
Qed.

(** X20. With [--history] the loop reads the header line itself as the
    first record and takes the record after it as the field names.  For a
    log that begins with the header and a record none of whose three fields
    is the word [event], and whose first field is not [timestamp], the first
    turn raises [KeyError] for [event] and nothing has been classified. *)
Theorem history_mode_raises (model : string) (ts ev d : string)
    (more : list (list string)) (ticks : list Monitor.tick) (w : world) :
  ts ≠ "timestamp" → "event" ∉ [ts; ev; d] →
  Monitor.main E model true (HEADER :: [ts; ev; d] :: more)
    (Monitor.Turn :: ticks) w
  = (Raise (KeyError "event"), w).
Proof.
  intros Hts Hev. unfold Monitor.main, Monitor.evaluate_live, Monitor.open_log.
  cbn [negb Monitor.ticks_from]. unfold mbind, M_bind.
  by rewrite turn_without_header.
Qed.

(** X21. A log that is empty when [evaluate_live] opens it leaves the
    reader without field names, even when the loop starts at the end.  If
    the header and a first record are then written before the first turn,
    that turn raises [KeyError] as in history mode; if only the header has
    been written, it raises [TypeError]. *)
Theorem empty_log_at_start_raises (model : string) (tail_start : bool)
    (ts ev d : string) (more : list (list string))
    (ticks : list Monitor.tick) (w : world) :
  ts ≠ "timestamp" → "event" ∉ [ts; ev; d] →
  Monitor.evaluate_live E model tail_start []
    (Monitor.Written (HEADER :: [ts; ev; d] :: more) :: Monitor.Turn :: ticks) w
  = (Raise (KeyError "event"), w)
  ∧ Monitor.evaluate_live E model tail_start []
      (Monitor.Written [HEADER] :: Monitor.Turn :: ticks) w
    = (Raise TypeError, w).
Proof.
  intros Hts Hev. unfold Monitor.evaluate_live, Monitor.open_log.
  assert ((if tail_start then Monitor.skip_to_end [] else Monitor.mkReader 0 None)
          = Monitor.mkReader 0 None) as -> by by destruct tail_start.
  cbn [Monitor.ticks_from app]. unfold mbind, M_bind.
  split; [by rewrite turn_without_header | reflexivity].
Qed.

End ReaderMore.

Lemma history_mode_raises_witness :
  Monitor.main (scripted [Some (Json.dumps praise)]) "gpt-4o-mini" true
    [HEADER; ["2025-05-01T09:00:00"; "app_snapshot"; "Finder"];
     ["2025-05-01T09:00:05"; "app_snapshot"; "Mail"]]
    [Monitor.Turn; Monitor.Turn] fresh
  = (Raise (KeyError "event"), fresh).
Proof.
  apply (history_mode_raises (scripted [Some (Json.dumps praise)])); [done|].
  rewrite !not_elem_of_cons. repeat split; try done. apply not_elem_of_nil.
Defined.

Lemma empty_log_at_start_raises_witness :
  Monitor.evaluate_live (scripted []) "gpt-4o-mini" true []
    [Monitor.Written [HEADER; ["2025-05-01T09:00:00"; "app_snapshot"; "Finder"]];
     Monitor.Turn] fresh
  = (Raise (KeyError "event"), fresh).
Proof.
  apply (empty_log_at_start_raises (scripted []) "gpt-4o-mini" true
           "2025-05-01T09:00:00" "app_snapshot" "Finder" [] []); [done|].
  rewrite !not_elem_of_cons. repeat split; try done. apply not_elem_of_nil.
Defined.

(** ** The logger thread and what the evaluator makes of its records *)

Lemma split_once_absent (sep s : string) :
  Monitor.contains sep s = false → Monitor.split_once sep s = [s].
Proof.
  induction s as [|c s IH]; simpl.
  - intros [-> _]%orb_false_elim. done.
  - intros [-> Hrest]%orb_false_elim. by rewrite (IH Hrest).
Qed.

Lemma split_once_title (title url : string) :
  has_char "|" title = false →
  Monitor.split_once "||" (title +:+ "||" +:+ url) = [title; url].
Proof.
  induction title as [|c title IH]; [done|].
  intros Hno. simpl in Hno. apply orb_false_elim in Hno as [Hc Hrest].
  rewrite (app_cons c title).
  assert (startswith "||" (String c (title +:+ "||" +:+ url)) = false) as Hno.
  { unfold startswith. rewrite Ascii.eqb_sym. by rewrite Hc. }
  cbn [Monitor.split_once]. rewrite Hno.
  by rewrite (IH Hrest).
Qed.

(** X22. The record the logger writes for a sample.  A window whose title
    does not contain [Chrome] gives [app_snapshot] with the title as
    details.  A Chrome window gives [browser_tab_snapshot] with
    [Unknown|Unknown] when the tab query fails, and with [title|url] when
    the output, stripped, is [title||url] and the title has no [|]; when
    the stripped output has no [||] at all the sample raises [ValueError]
    and nothing is written. *)
Theorem logger_sample_record (ts app : string) (osascript : option string) :
  (Monitor.contains "Chrome" app = false →
     Monitor.sample ts app osascript = Ok [ts; "app_snapshot"; app])
  ∧ (Monitor.contains "Chrome" app = true → osascript = None →
     Monitor.sample ts app osascript
     = Ok [ts; "browser_tab_snapshot"; "Unknown|Unknown"])
  ∧ (∀ out title url,
       Monitor.contains "Chrome" app = true → osascript = Some out →
       strip out = title +:+ "||" +:+ url → has_char "|" title = false →
       Monitor.sample ts app osascript
       = Ok [ts; "browser_tab_snapshot"; title +:+ "|" +:+ url])
  ∧ (∀ out,
       Monitor.contains "Chrome" app = true → osascript = Some out →
       Monitor.contains "||" (strip out) = false →
       Monitor.sample ts app osascript = Raise ValueError).
Proof.
  unfold Monitor.sample, Monitor._get_chrome_tab. repeat split.
  - by intros ->.
  - by intros -> ->.
  - intros out title url -> -> -> Hno. by rewrite split_once_title.
  - intros out -> -> Hno. by rewrite split_once_absent.
Qed.

Lemma logger_sample_record_witness :
  Monitor.sample "2025-05-01T09:00:00" "Google Chrome"
    (Some ("Rocq manual||https://rocq-prover.org/doc" +:+ nl))
  = Ok ["2025-05-01T09:00:00"; "browser_tab_snapshot";
        "Rocq manual|https://rocq-prover.org/doc"].
Proof.
  destruct (logger_sample_record "2025-05-01T09:00:00" "Google Chrome"
              (Some ("Rocq manual||https://rocq-prover.org/doc" +:+ nl)))
    as (_ & _ & Htab & _).
  apply (Htab ("Rocq manual||https://rocq-prover.org/doc" +:+ nl)
           "Rocq manual" "https://rocq-prover.org/doc");
    vm_compute; reflexivity.
Defined.

(** X23. What the evaluator classifies for a record of the built-in logger,
    read by the live loop under the usual header.  For a window that is not
    Chrome the sentence is the word [app_snapshot], the same for every
    title: the title does not reach the classifier.  For a Chrome tab whose
    title has no [|] the sentence is [Visited "title" in browser]: the URL
    does not reach the classifier. *)
Theorem logger_records_as_sentences (ts app : string)
    (osascript : option string) (row : list string) :
  Monitor.sample ts app osascript = Ok row →
  (Monitor.contains "Chrome" app = false →
     sentence_from_row (Both.dict (zip HEADER row)) = Ok "app_snapshot")
  ∧ (∀ out title url,
       Monitor.contains "Chrome" app = true → osascript = Some out →
       strip out = title +:+ "||" +:+ url → has_char "|" title = false →
       sentence_from_row (Both.dict (zip HEADER row))
       = Ok ("Visited " +:+ quote +:+ title +:+ quote +:+ " in browser")).
Proof.
  unfold Monitor.sample, Monitor._get_chrome_tab. intros Hrow. split.
  - intros Hno. rewrite Hno in Hrow. injection Hrow as <-. reflexivity.
  - intros out title url Hchrome -> Hstrip Hno.
    rewrite Hchrome, Hstrip, split_once_title in Hrow by done.
    injection Hrow as <-.
    rewrite sentence_live_row, sentence_raw_event.
    change (startswith "browser_tab" "browser_tab_snapshot") with true.
    cbn iota. by rewrite first_clause_app.
Qed.

Lemma logger_records_as_sentences_witness :
  sentence_from_row
    (Both.dict (zip HEADER ["2025-05-01T09:00:00"; "app_snapshot"; "Writer - draft.txt"]))
  = Ok "app_snapshot".
Proof.
  apply (logger_records_as_sentences "2025-05-01T09:00:00"
           "Writer - draft.txt" None); reflexivity.
Defined.

Lemma sample_row_shape (ts app : string) (osascript : option string)
    (row : list string) :
  Monitor.sample ts app osascript = Ok row →
  length row = 3%nat ∧ row ≠ HEADER.
Proof.
  unfold Monitor.sample.
  destruct (Monitor.contains "Chrome" app).
  - destruct (Monitor._get_chrome_tab osascript) as [|title [|url [|]]];
      try done. by intros [= <-].
  - by intros [= <-].
Qed.

Lemma write_samples_well_formed (samples : list (string * string * option string))
    (file : list (list string)) :
  well_formed_log file →
  well_formed_log (Monitor.write_samples samples file).2.
Proof.
  revert file. induction samples as [|[[ts app] osa] samples IH];
    intros file Hwf; simpl; [done|].
  destruct (Monitor.sample ts app osa) as [row|] eqn:Hrow; [|done].
  apply IH. destruct Hwf as (records & -> & Hall).
  exists (records ++ [row]). split; [done|].
  apply Forall_app. split; [done|]. apply Forall_singleton.
  by eapply sample_row_shape.
Qed.

(** X24. Started on an empty file, or on a log it has written before, the
    logger leaves a log that begins with the header and continues with
    records of three fields, none of which is the header again, also when a
    sample raises: a second header never comes from the logger itself. *)
Theorem logger_keeps_one_header (file : list (list string))
    (samples : list (string * string * option string)) :
  file = [] ∨ well_formed_log file →
  well_formed_log (Monitor.logger_thread file samples).2.
Proof.
  intros Hfile. unfold Monitor.logger_thread.
  apply write_samples_well_formed. case_decide as Hempty.
  - by exists [].
  - by destruct Hfile.
Qed.

Lemma logger_keeps_one_header_witness :
  well_formed_log
    (Monitor.logger_thread []
       [("2025-05-01T09:00:00", "Finder", None);
        ("2025-05-01T09:00:05", "Google Chrome", Some "no separator")]).2.
Proof. apply logger_keeps_one_header. by left. Defined.

(** ** An answer that parses but cannot be used *)

(** X25. When the service answers a sentence that is not cached with JSON
    from which [res["score"]] cannot be read (not an object, or no such
    key), the live loop raises on that line after the answer has been
    written to the cache; from then on the same line raises the same
    exception for every model and streak without a request being sent,
    provided the answer survives the JSON round trip. *)
Theorem unusable_answer_stays_cached (E : env) (model : string)
    (fieldnames fields : list string) (streak : Streak.t) (w : world)
    (sentence : string) (v : json) (e : exn) :
  ¬ passed_over fieldnames (Both.Line fields) →
  sentence_from_row (Both.dict (zip fieldnames fields)) = Ok sentence →
  files w !! cache_file E sentence = None →
  (call_llm E Both.PROMPT_TMPL Both.PHILOSOPHY sentence model w).1 = Ok v →
  json_getitem v "score" = Raise e →
  json_loads E (json_dumps E v) = Some v →
  ∃ w1,
    Both.evaluate_step E model fieldnames streak (Both.Line fields) w
    = (Raise e, w1)
    ∧ requests w1 = S (requests w)
    ∧ ∀ model' streak',
        Both.evaluate_step E model' fieldnames streak' (Both.Line fields) w1
        = (Raise e, w1).
Proof.
  intros Hline Hsent Hmiss Hcall Hscore Hrt. simpl in Hline.
  unfold Both.evaluate_step, Both.classify. rewrite decide_False by done.
  unfold lift, mbind, M_bind. rewrite Hsent.
  rewrite (classify_miss _ _ _ _ _ _ Hmiss), Hcall.
  eexists. split.
  { unfold streak_update, lift, mbind, M_bind. by rewrite Hscore. }
  split; [reflexivity|].
  intros model' streak'. rewrite decide_False by done. cbv beta.
  erewrite classify_hit; [|by apply lookup_insert_eq].
  rewrite Hrt. simpl.
  unfold streak_update, lift, mbind, M_bind. by rewrite Hscore.
Qed.

Lemma unusable_answer_stays_cached_witness :
  let E := scripted [Some (Json.dumps (JList [JInt 5]))] in
  ∃ w1,
    Both.evaluate_step E "gpt-4o-mini" HEADER Streak.init
      (Both.Line ["2025-05-01T09:00:00"; "app_switch"; "Writer"]) fresh
    = (Raise TypeError, w1)
    ∧ Both.evaluate_step E "gpt-4o" HEADER Streak.init
        (Both.Line ["2025-05-01T09:00:00"; "app_switch"; "Writer"]) w1
      = (Raise TypeError, w1).
Proof.
  intros E.
  destruct (unusable_answer_stays_cached E "gpt-4o-mini" HEADER
              ["2025-05-01T09:00:00"; "app_switch"; "Writer"] Streak.init fresh
              "Switched to Writer" (JList [JInt 5]) TypeError)
    as (w1 & Hfirst & _ & Hagain).
  - vm_compute. discriminate.
  - vm_compute; reflexivity.
  - vm_compute; reflexivity.
  - vm_compute; reflexivity.
  - reflexivity.
  - vm_compute; reflexivity.
  - exists w1. split; [exact Hfirst | apply Hagain].
Defined.
